(** * The Trustpilot API client of [trustpilotEndpoint.py]

    A shallow embedding of [TrustpilotAPIClient]: the request executor
    [_make_request], the public operations built on it and the pagination
    loop of [get_all_reviews], followed by the properties that the
    specification states about them.

    The world outside the client (the HTTP library and the clock) is the
    state that the operations thread: a log of the GET calls issued, the
    pauses taken and the lines printed, and the number of GET calls made so
    far.  What a GET call answers is given by a [Transport]. *)

From Stdlib Require Import ZArith List String Ascii Bool Lia QArith.
From Stdlib Require Import DecimalString DecimalPos DecimalZ.
Import ListNotations.

Local Open Scope string_scope.
Local Open Scope Z_scope.

Set Warnings "-register-all".

(** ** Python values *)

(** The document that [response.json()] decodes: [None], [bool], [int],
    [float] (a finite one, as the rational it denotes), [str], [list]
    and [dict] (insertion ordered, as a list of bindings).  A [str] is
    the sequence of its characters: one character of the model stands
    for one code point, so the model holds the strings over the first
    256 code points. *)
Inductive Json : Type :=
| JNull
| JBool (b : bool)
| JInt (n : Z)
| JFloat (x : Q)
| JStr (s : string)
| JArr (items : list Json)
| JObj (fields : list (string * Json)).

(** The classes of [requests.exceptions] that the handlers of
    [_make_request] tell apart, and every exception outside that family.
    [ConnectTimeout] derives from both [ConnectionError] and [Timeout]. *)
Inductive ExcClass : Type :=
| ReadTimeout
| ConnectTimeout
| ConnectionError
| OtherRequestException
| NotRequestException.

(** An exception raised by the HTTP library, with the text of [str(e)]. *)
Record PyException : Type := mkExc {
  exc_class : ExcClass;
  exc_str : string
}.

Definition isinstance_Timeout (e : PyException) : bool :=
  match exc_class e with
  | ReadTimeout | ConnectTimeout => true
  | _ => false
  end.

Definition isinstance_ConnectionError (e : PyException) : bool :=
  match exc_class e with
  | ConnectTimeout | ConnectionError => true
  | _ => false
  end.

Definition isinstance_RequestException (e : PyException) : bool :=
  match exc_class e with
  | NotRequestException => false
  | _ => true
  end.

(** [class TrustpilotAPIError(Exception)]: the one exception class of the
    client.  It carries its message, and the exception it was raised
    [from], if any. *)
Record TrustpilotAPIError : Type := mkApiError {
  message : string;
  cause : option PyException
}.

(** What a call can raise. *)
Inductive Raised : Type :=
| ApiError (e : TrustpilotAPIError)
| LibraryError (e : PyException)
| AttributeError
| TypeError
| ValueError
| OverflowError.

(** The outcome of a call: the value it returns or what it raises. *)
Inductive Result (A : Type) : Type :=
| Return (a : A)
| Raise (r : Raised).

Arguments Return {A} a.
Arguments Raise {A} r.

(** [str(n)] and [f"{n}"] for an [int] that the interpreter turns into
    text.  The client itself formats status codes and page numbers;
    [format_review], which formats integers of the payload, tests the
    digit limit of the interpreter first ([int_fits]). *)
Definition str_int (n : Z) : string := NilZero.string_of_int (Z.to_int n).

(** ** Configuration *)

(** [@dataclass TrustpilotConfig].  The delay is a finite number of
    seconds, as the rational it denotes; it may be negative. *)
Record TrustpilotConfig : Type := mkConfig {
  api_key : string;
  base_url : string;
  timeout : Z;
  rate_limit_delay : Q
}.

(** The constructor with the defaults of the dataclass. *)
Definition TrustpilotConfig_default (key : string) : TrustpilotConfig :=
  {| api_key := key;
     base_url := "https://api.trustpilot.com/v1";
     timeout := 30;
     rate_limit_delay := 1 # 10 |}.

(** ** The HTTP library *)

(** A value of the [params] dictionary. *)
Inductive ParamValue : Type :=
| PStr (s : string)
| PInt (n : Z).

(** The [params] argument: [None] or a dictionary, in insertion order. *)
Definition Params : Type := option (list (string * ParamValue)).

(** The arguments of one [session.get(url, params=..., timeout=...)]. *)
Record Request : Type := mkRequest {
  req_url : string;
  req_params : Params;
  req_timeout : Z
}.

(** [response.json()] returns the decoded body or raises. *)
Inductive JsonOutcome : Type :=
| JsonValue (j : Json)
| JsonRaises (e : PyException).

(** The [response] object, as far as the client reads it. *)
Record Response : Type := mkResponse {
  status_code : Z;
  text : string;
  json : JsonOutcome
}.

(** [session.get] returns a response or raises. *)
Inductive GetOutcome : Type :=
| GetResponse (r : Response)
| GetRaises (e : PyException).

(** The answer to the [n]-th GET call (counting from 0) of a run, given
    its arguments. *)
Definition Transport : Type := nat -> Request -> GetOutcome.

(** What the client does to the outside. *)
Inductive Event : Type :=
| EvGet (r : Request)
| EvSleep (d : Q)
| EvPrint (line : string).

Record World : Type := mkWorld {
  calls : nat;
  trace : list Event
}.

Definition init_world : World := {| calls := 0; trace := [] |}.

(** Computations that act on the world. *)
Definition M (A : Type) : Type := World -> A * World.

Definition ret {A} (a : A) : M A := fun w => (a, w).

Definition bind {A B} (m : M A) (k : A -> M B) : M B :=
  fun w => let (a, w') := m w in k a w'.

Notation "x <- m ;; k" := (bind m (fun x => k))
  (at level 61, m at next level, right associativity).
Notation "m ;;; k" := (bind m (fun _ => k))
  (at level 61, right associativity).

Definition emit (e : Event) : M unit :=
  fun w => (tt, {| calls := calls w; trace := trace w ++ [e] |}).

(** What [time.sleep(d)] raises, for a finite number [d], instead of
    pausing.  The delay is converted to whole nanoseconds in a signed
    64-bit integer: out of that range the call raises [OverflowError];
    in range and negative, [ValueError]. *)
Definition sleep_error (d : Q) : option Raised :=
  let ns := (d * (1000000000 # 1))%Q in
  if negb (Qle_bool (- (9223372036854775808 # 1)) ns
           && Qle_bool ns (9223372036854775807 # 1))
  then Some OverflowError
  else if negb (Qle_bool 0 d) then Some ValueError
  else None.

(** The delays for which [time.sleep] pauses: from 0 to the largest
    number of seconds whose nanoseconds fit in 63 bits (some 292
    years). *)
Definition valid_delay (d : Q) : Prop :=
  (0 <= d)%Q /\ (d * (1000000000 # 1) <= 9223372036854775807 # 1)%Q.

(** [time.sleep(d)]. *)
Definition time_sleep (d : Q) : M (Result unit) :=
  match sleep_error d with
  | Some r => ret (Raise r)
  | None => emit (EvSleep d) ;;; ret (Return tt)
  end.

(** [print(line)]. *)
Definition print (line : string) : M unit := emit (EvPrint line).

(** The GET calls of a trace, in order. *)
Fixpoint requests_of (t : list Event) : list Request :=
  match t with
  | [] => []
  | EvGet r :: t' => r :: requests_of t'
  | _ :: t' => requests_of t'
  end.

(** The pauses of a trace, in order. *)
Fixpoint sleeps_of (t : list Event) : list Q :=
  match t with
  | [] => []
  | EvSleep d :: t' => d :: sleeps_of t'
  | _ :: t' => sleeps_of t'
  end.

(** [s.lstrip('/')]. *)
Fixpoint lstrip_slash (s : string) : string :=
  match s with
  | String c s' => if Ascii.eqb c "/"%char then lstrip_slash s' else s
  | EmptyString => s
  end.

Section Client.

Variable transport : Transport.
Variable config : TrustpilotConfig.

(** [TrustpilotAPIClient.__init__]: the headers that the client sets on
    its session, which every GET call of the session carries. *)
Definition session_headers : list (string * string) :=
  [("apikey", api_key config);
   ("Content-Type", "application/json");
   ("User-Agent", "TrustpilotAPIClient/1.0")].

(** [self.session.get(url, params=params, timeout=...)]. *)
Definition session_get (r : Request) : M GetOutcome :=
  fun w => (transport (calls w) r,
            {| calls := S (calls w); trace := trace w ++ [EvGet r] |}).

(** The [if]/[elif] chain of [_make_request] on the status code. *)
Definition on_status (response : Response) : Result Json :=
  if status_code response =? 200 then
    match json response with
    | JsonValue j => Return j
    | JsonRaises e => Raise (LibraryError e)
    end
  else if status_code response =? 401 then
    Raise (ApiError (mkApiError "Invalid API key or unauthorized access" None))
  else if status_code response =? 404 then
    Raise (ApiError (mkApiError "Resource not found" None))
  else if status_code response =? 429 then
    Raise (ApiError (mkApiError
      "Rate limit exceeded. Please wait before making more requests." None))
  else
    Raise (ApiError (mkApiError
      ("API request failed with status " ++ str_int (status_code response)
         ++ ": " ++ text response) None)).

(** The [except] clauses of [_make_request], tried in order on what the
    [try] block raised. *)
Definition on_exception {A} (r : Result A) : Result A :=
  match r with
  | Raise (LibraryError exc) =>
      if isinstance_Timeout exc then
        Raise (ApiError (mkApiError "Request timed out" (Some exc)))
      else if isinstance_ConnectionError exc then
        Raise (ApiError (mkApiError "Connection error occurred" (Some exc)))
      else if isinstance_RequestException exc then
        Raise (ApiError (mkApiError ("Request failed: " ++ exc_str exc)
                                    (Some exc)))
      else r
  | _ => r
  end.

(** The URL that [_make_request] builds. *)
Definition url_of (endpoint : string) : string :=
  base_url config ++ "/" ++ lstrip_slash endpoint.

(** [TrustpilotAPIClient._make_request]. *)
Definition _make_request (endpoint : string) (params : Params)
  : M (Result Json) :=
  let url := url_of endpoint in
  got <- session_get (mkRequest url params (timeout config)) ;;
  match got with
  | GetResponse response =>
      slept <- time_sleep (rate_limit_delay config) ;;
      match slept with
      | Return _ => ret (on_exception (on_status response))
      | Raise r => ret (on_exception (Raise r))
      end
  | GetRaises exc =>
      ret (on_exception (Raise (LibraryError exc)))
  end.

(** [TrustpilotAPIClient.find_business_unit]. *)
Definition find_business_unit (domain : string) : M (Result Json) :=
  let endpoint := "business-units/find" in
  let params := Some [("name", PStr domain)] in
  _make_request endpoint params.

(** [TrustpilotAPIClient.get_business_unit_info]. *)
Definition get_business_unit_info (buid : string) : M (Result Json) :=
  let endpoint := "business-units/" ++ buid in
  _make_request endpoint None.

(** [TrustpilotAPIClient.get_reviews]. *)
Definition get_reviews (buid : string) (per_page : Z) (page : Z)
  : M (Result Json) :=
  let endpoint := "business-units/" ++ buid ++ "/reviews" in
  let params := Some [("perPage", PInt (Z.min per_page 100));
                      ("page", PInt page)] in
  _make_request endpoint params.

(** ** What [get_all_reviews] does with a payload *)

(** [response.get(key, default)]: defined on a [dict] only. *)
Fixpoint dict_lookup (key : string) (fields : list (string * Json))
  : option Json :=
  match fields with
  | [] => None
  | (k, v) :: rest => if String.eqb k key then Some v else dict_lookup key rest
  end.

Definition py_get (response : Json) (key : string) (default : Json)
  : Result Json :=
  match response with
  | JObj fields =>
      match dict_lookup key fields with
      | Some v => Return v
      | None => Return default
      end
  | _ => Raise AttributeError
  end.

(** The truth value of a Python object, as [not] and [if] test it. *)
Definition truthy (v : Json) : bool :=
  match v with
  | JNull => false
  | JBool b => b
  | JInt n => negb (n =? 0)
  | JFloat x => negb (Qnum x =? 0)
  | JStr s => negb (String.eqb s "")
  | JArr items => match items with [] => false | _ => true end
  | JObj fields => match fields with [] => false | _ => true end
  end.

(** The characters (code points) of a [str], each a [str] of length
    one. *)
Fixpoint chars_of (s : string) : list Json :=
  match s with
  | EmptyString => []
  | String c s' => JStr (String c EmptyString) :: chars_of s'
  end.

(** The items that iterating over a Python object yields: the elements of
    a [list], the characters of a [str], the keys of a [dict]. *)
Definition py_iter (v : Json) : Result (list Json) :=
  match v with
  | JArr items => Return items
  | JStr s => Return (chars_of s)
  | JObj fields => Return (map (fun kv => JStr (fst kv)) fields)
  | _ => Raise TypeError
  end.

(** [all_reviews.extend(reviews)], returning the extended list. *)
Definition py_extend (all_reviews : list Json) (reviews : Json)
  : Result (list Json) :=
  match py_iter reviews with
  | Return items => Return (all_reviews ++ items)%list
  | Raise r => Raise r
  end.

(** [len(reviews)]: the number of elements, of characters (code points)
    or of keys. *)
Definition py_len (v : Json) : Result Z :=
  match v with
  | JArr items => Return (Z.of_nat (List.length items))
  | JStr s => Return (Z.of_nat (String.length s))
  | JObj fields => Return (Z.of_nat (List.length fields))
  | _ => Raise TypeError
  end.

(** The test [max_pages and page > max_pages]: [None] and [0] are false. *)
Definition page_limit_reached (max_pages : option Z) (page : Z) : bool :=
  match max_pages with
  | None => false
  | Some m => if m =? 0 then false else page >? m
  end.

(** What one pass through the body of the [while True] loop decides. *)
Inductive LoopStep : Type :=
| Break (all_reviews : list Json)
| Continue (all_reviews : list Json) (page : Z)
| Propagate (r : Raised).

(** The statements of the [try] block that follow the call of
    [get_reviews], on the payload it returned. *)
Definition on_page (all_reviews : list Json) (page : Z) (response : Json)
  : LoopStep :=
  match py_get response "reviews" (JArr []) with
  | Raise r => Propagate r
  | Return reviews =>
      if negb (truthy reviews) then Break all_reviews
      else
        match py_extend all_reviews reviews with
        | Raise r => Propagate r
        | Return all_reviews' =>
            let page' := page + 1 in
            match py_len reviews with
            | Raise r => Propagate r
            | Return n =>
                if n <? 100 then Break all_reviews'
                else Continue all_reviews' page'
            end
        end
  end.

(** One pass through the body of the loop: the limit test, the request
    and the [except TrustpilotAPIError] clause. *)
Definition loop_body (buid : string) (max_pages : option Z)
    (all_reviews : list Json) (page : Z) : M LoopStep :=
  if page_limit_reached max_pages page then ret (Break all_reviews)
  else
    got <- get_reviews buid 100 page ;;
    match got with
    | Return response => ret (on_page all_reviews page response)
    | Raise (ApiError e) =>
        print ("Error fetching page " ++ str_int page ++ ": " ++ message e) ;;;
        ret (Break all_reviews)
    | Raise r => ret (Propagate r)
    end.

(** The [while True] loop, run for at most [fuel] passes: [None] when the
    loop is still running after them. *)
Fixpoint get_all_reviews_loop (fuel : nat) (buid : string)
    (max_pages : option Z) (all_reviews : list Json) (page : Z)
  : M (option (Result (list Json))) :=
  match fuel with
  | O => ret None
  | S fuel' =>
      step <- loop_body buid max_pages all_reviews page ;;
      match step with
      | Break all_reviews' => ret (Some (Return all_reviews'))
      | Propagate r => ret (Some (Raise r))
      | Continue all_reviews' page' =>
          get_all_reviews_loop fuel' buid max_pages all_reviews' page'
      end
  end.

(** [TrustpilotAPIClient.get_all_reviews]. *)
Definition get_all_reviews (fuel : nat) (buid : string)
    (max_pages : option Z) : M (option (Result (list Json))) :=
  get_all_reviews_loop fuel buid max_pages [] 1.

(** [TrustpilotAPIClient.get_business_statistics]. *)
Definition get_business_statistics (buid : string) : M (Result Json) :=
  let endpoint := "business-units/" ++ buid ++ "/statistics" in
  _make_request endpoint None.

End Client.

(** ** The pages of a run of [get_all_reviews] *)

Section Pages.

Variable transport : Transport.
Variable config : TrustpilotConfig.
Variable buid : string.

(** The GET call that [get_all_reviews] issues for a page. *)
Definition reviews_request (page : Z) : Request :=
  mkRequest (url_of config ("business-units/" ++ buid ++ "/reviews"))
            (Some [("perPage", PInt 100); ("page", PInt page)])
            (timeout config).

(** What [_make_request] makes of the answer of the HTTP library. *)
Definition make_request_result (o : GetOutcome) : Result Json :=
  match o with
  | GetResponse response =>
      match sleep_error (rate_limit_delay config) with
      | Some r => on_exception (Raise r)
      | None => on_exception (on_status response)
      end
  | GetRaises exc => on_exception (Raise (LibraryError exc))
  end.

(** What one call of [_make_request] adds to the trace: the GET call,
    and the pause when the call returned a response and [time.sleep]
    took the delay. *)
Definition events_of_call (r : Request) (o : GetOutcome) : list Event :=
  match o, sleep_error (rate_limit_delay config) with
  | GetResponse _, None => [EvGet r; EvSleep (rate_limit_delay config)]
  | _, _ => [EvGet r]
  end.

(** What [get_reviews] makes of the answer to the [c]-th GET call when
    that call asks for [page]. *)
Definition answer_at (c : nat) (page : Z) : Result Json :=
  make_request_result (transport c (reviews_request page)).

(** The review list of a payload, when the payload is a [dict] whose
    ['reviews'] entry is a [list] or is missing. *)
Definition reviews_of_payload (payload : Json) : option (list Json) :=
  match py_get payload "reviews" (JArr []) with
  | Return (JArr reviews) => Some reviews
  | _ => None
  end.

(** The [c]-th call, asking for [page], succeeds with a review list. *)
Definition succeeds_at (c : nat) (page : Z) (reviews : list Json) : Prop :=
  exists payload,
    answer_at c page = Return payload /\
    reviews_of_payload payload = Some reviews.

(** In a run of [get_all_reviews] that starts in the world [w], the
    request for page [k] (counted from 1) is GET call number
    [calls w + (k - 1)]. *)
Definition page_outcome (w : World) (k : nat) : GetOutcome :=
  transport (calls w + Nat.pred k)%nat (reviews_request (Z.of_nat k)).

(** Page [k] succeeds with the review list [reviews]. *)
Definition page_succeeds (w : World) (k : nat) (reviews : list Json) : Prop :=
  succeeds_at (calls w + Nat.pred k) (Z.of_nat k) reviews.

(** Page [k] fails with the API error [e]. *)
Definition page_fails (w : World) (k : nat) (e : TrustpilotAPIError) : Prop :=
  answer_at (calls w + Nat.pred k) (Z.of_nat k) = Raise (ApiError e).

(** The [c]-th call, asking for [page], ends the loop: it fails with an
    API error, or succeeds with an empty review list, or succeeds with
    fewer than 100 reviews. *)
Definition stops_at (c : nat) (page : Z) : Prop :=
  (exists e, answer_at c page = Raise (ApiError e)) \/
  succeeds_at c page [] \/
  (exists reviews, succeeds_at c page reviews /\
                   (List.length reviews < 100)%nat).

(** The [c]-th call, asking for [page], has one of the two outcomes of a
    page: an API error or a review list. *)
Definition well_formed_at (c : nat) (page : Z) : Prop :=
  (exists e, answer_at c page = Raise (ApiError e)) \/
  (exists reviews, succeeds_at c page reviews).

(** The [c]-th call, asking for [page], lets the loop go on: it returns
    a [dict] whose ['reviews'] entry is true, can be iterated over and
    has a length of at least 100. *)
Definition continues_at (c : nat) (page : Z) : Prop :=
  exists payload reviews items n,
    answer_at c page = Return payload /\
    py_get payload "reviews" (JArr []) = Return reviews /\
    truthy reviews = true /\
    py_iter reviews = Return items /\
    py_len reviews = Return n /\
    100 <= n.

(** Page [k] ends the loop. *)
Definition page_stops (w : World) (k : nat) : Prop :=
  stops_at (calls w + Nat.pred k) (Z.of_nat k).

(** Page [k] is an API error or a review list. *)
Definition page_well_formed (w : World) (k : nat) : Prop :=
  well_formed_at (calls w + Nat.pred k) (Z.of_nat k).

(** The trace of [n] successful requests for the pages from [page] on. *)
Fixpoint page_events (page : Z) (n : nat) : list Event :=
  match n with
  | O => []
  | S n' => EvGet (reviews_request page)
            :: EvSleep (rate_limit_delay config)
            :: page_events (page + 1) n'
  end.

(** The loop of [get_all_reviews] comes to an end. *)
Definition terminates (max_pages : option Z) (w : World) : Prop :=
  exists fuel, fst (get_all_reviews transport config fuel buid max_pages w)
               <> None.

End Pages.

(** ** The error taxonomy of the specification *)

(** The kinds of failure that the specification names.  The source has the
    single class [TrustpilotAPIError]; what tells its instances apart is
    the message that each [raise] builds. *)
Inductive ErrorKind : Type :=
| AuthenticationError_kind
| NotFoundError_kind
| RateLimitError_kind
| TimeoutError_kind
| ConnectionError_kind
| RequestError_kind.

(** The kind of an API error, read off its message. *)
Definition error_kind (e : TrustpilotAPIError) : option ErrorKind :=
  let m := message e in
  if String.eqb m "Invalid API key or unauthorized access" then
    Some AuthenticationError_kind
  else if String.eqb m "Resource not found" then
    Some NotFoundError_kind
  else if String.eqb m
            "Rate limit exceeded. Please wait before making more requests."
  then Some RateLimitError_kind
  else if String.eqb m "Request timed out" then
    Some TimeoutError_kind
  else if String.eqb m "Connection error occurred" then
    Some ConnectionError_kind
  else if String.prefix "API request failed with status " m then
    Some RequestError_kind
  else if String.prefix "Request failed: " m then
    Some RequestError_kind
  else None.

(** The table of the specification: which kind of failure each answer of
    the HTTP library is to yield.  A 200 response and an exception that
    is not the library's own have no entry. *)
Definition spec_failure_kind (o : GetOutcome) : option ErrorKind :=
  match o with
  | GetResponse response =>
      if status_code response =? 200 then None
      else if status_code response =? 401 then Some AuthenticationError_kind
      else if status_code response =? 404 then Some NotFoundError_kind
      else if status_code response =? 429 then Some RateLimitError_kind
      else Some RequestError_kind
  | GetRaises exc =>
      if isinstance_Timeout exc then Some TimeoutError_kind
      else if isinstance_ConnectionError exc then Some ConnectionError_kind
      else if isinstance_RequestException exc then Some RequestError_kind
      else None
  end.

(** What a caller can read back from the message of a request error
    built from a status code: the text after the fixed prefix, up to the
    first colon, as a number, and what follows the colon and the space. *)
Fixpoint drop_prefix (p s : string) : option string :=
  match p, s with
  | EmptyString, _ => Some s
  | String a p', String b s' =>
      if Ascii.eqb a b then drop_prefix p' s' else None
  | String _ _, EmptyString => None
  end.

Fixpoint split_colon (s : string) : option (string * string) :=
  match s with
  | EmptyString => None
  | String c s' =>
      if Ascii.eqb c ":"%char then Some (EmptyString, s')
      else
        match split_colon s' with
        | Some (before, after) => Some (String c before, after)
        | None => None
        end
  end.

Definition request_error_details (e : TrustpilotAPIError)
  : option (Z * string) :=
  match drop_prefix "API request failed with status " (message e) with
  | Some rest =>
      match split_colon rest with
      | Some (digits, String " " body) =>
          match NilZero.int_of_string digits with
          | Some d => Some (Z.of_int d, body)
          | None => None
          end
      | _ => None
      end
  | None => None
  end.

(** The result is an API error of the kind [k]. *)
Definition raises_kind (r : Result Json) (k : ErrorKind) : Prop :=
  exists e, r = Raise (ApiError e) /\ error_kind e = Some k.

(** ** Simulated page streams *)

(** [n] distinct reviews, numbered from [first]. *)
Fixpoint sample_reviews (first : Z) (n : nat) : list Json :=
  match n with
  | O => []
  | S n' => JObj [("id", JInt first); ("stars", JInt 5)]
            :: sample_reviews (first + 1) n'
  end.

(** A 200 response whose body decodes to [{"reviews": reviews}]. *)
Definition reviews_response (reviews : list Json) : GetOutcome :=
  GetResponse {| status_code := 200;
                 text := "";
                 json := JsonValue (JObj [("reviews", JArr reviews)]) |}.

(** A response with an error status and a body. *)
Definition status_response (status : Z) (body : string) : GetOutcome :=
  GetResponse {| status_code := status;
                 text := body;
                 json := JsonRaises (mkExc OtherRequestException
                                           "Expecting value") |}.

(** Page 1 has 100 reviews, page 2 has 100, page 3 has 42; nothing
    follows. *)
Definition three_pages : Transport :=
  fun c _ =>
    match c with
    | 0%nat => reviews_response (sample_reviews 1 100)
    | 1%nat => reviews_response (sample_reviews 101 100)
    | 2%nat => reviews_response (sample_reviews 201 42)
    | _ => reviews_response []
    end.

(** Page 1 has 100 reviews; from page 2 on the server answers 429. *)
Definition rate_limited_after_one : Transport :=
  fun c _ =>
    match c with
    | 0%nat => reviews_response (sample_reviews 1 100)
    | _ => status_response 429 "Too Many Requests"
    end.

(** Page 1 has a single review; from page 2 on the server answers 429. *)
Definition short_page_then_error : Transport :=
  fun c _ =>
    match c with
    | 0%nat => reviews_response (sample_reviews 1 1)
    | _ => status_response 429 "Too Many Requests"
    end.

(** Every page is full: 100 reviews, forever. *)
Definition endless_pages : Transport :=
  fun _ _ => reviews_response (sample_reviews 1 100).

(** Every GET call gets the same answer. *)
Definition answers_with (o : GetOutcome) : Transport := fun _ _ => o.

(** A 200 response with a business unit in its body. *)
Definition found_business : Response :=
  {| status_code := 200;
     text := "";
     json := JsonValue
               (JObj [("businessUnits",
                       JArr [JObj [("id", JStr "46d6a890000064000500e0c3");
                                   ("displayName", JStr "Example")]])]) |}.

(** The body of page 1 decodes to a list, not to a [dict]; every later
    page is full. *)
Definition list_then_full_pages : Transport :=
  fun c _ =>
    match c with
    | 0%nat => GetResponse (mkResponse 200 "[]" (JsonValue (JArr [])))
    | _ => reviews_response (sample_reviews 1 100)
    end.

(** Every GET call times out. *)
Definition always_times_out : Transport :=
  fun _ _ => GetRaises (mkExc ReadTimeout "Read timed out.").

Definition demo_config : TrustpilotConfig := TrustpilotConfig_default "key".

(** ** Statements that are put to the test *)

(** The GET calls for the pages [1] to [k], in order. *)
Definition page_requests (config : TrustpilotConfig) (buid : string)
    (k : nat) : list Request :=
  map (fun j => reviews_request config buid (Z.of_nat j)) (seq 1 k).

(** Partial results, read with no condition on the size of the pages
    before the failing one: page 1 succeeds with a non-empty list, the
    pages up to [k - 1] succeed, the request for page [k] fails; then the
    run issues the requests for the pages 1 to [k] and returns the
    reviews of the pages before [k]. *)
Definition partial_result_for_any_page_sizes : Prop :=
  forall (transport : Transport) (config : TrustpilotConfig) (buid : string)
         (w : World) (first : list Json) (others : list (list Json))
         (e : TrustpilotAPIError),
    let pages := first :: others in
    let k := S (List.length pages) in
    valid_delay (rate_limit_delay config) ->
    first <> [] ->
    (forall j reviews, nth_error pages j = Some reviews ->
       page_succeeds transport config buid w (S j) reviews) ->
    page_fails transport config buid w k e ->
    exists fuel w',
      get_all_reviews transport config fuel buid None w =
        (Some (Return (List.concat pages)), w') /\
      requests_of (trace w') =
        (requests_of (trace w) ++ page_requests config buid k)%list.

(** Termination, read for every stream of answers: with a positive
    maximum page count the loop ends; with none, it ends if and only if
    some page is an API error, an empty review list or a list of fewer
    than 100 reviews. *)
Definition termination_on_any_stream : Prop :=
  forall (transport : Transport) (config : TrustpilotConfig) (buid : string)
         (w : World),
    valid_delay (rate_limit_delay config) ->
    (forall m, 0 < m -> terminates transport config buid (Some m) w) /\
    (terminates transport config buid None w <->
     exists k, (1 <= k)%nat /\ page_stops transport config buid w k).

(** The pause, read as unconditional: every call of [_make_request],
    with a delay that [time.sleep] takes, pauses once for that delay
    before it hands control back. *)
Definition pause_after_every_call : Prop :=
  forall (transport : Transport) (config : TrustpilotConfig)
         (endpoint : string) (params : Params) (w : World),
    valid_delay (rate_limit_delay config) ->
    sleeps_of (trace (snd (_make_request transport config endpoint params w)))
    = (sleeps_of (trace w) ++ [rate_limit_delay config])%list.

(** ** Display of a review *)

(** [n] slashes. *)
Fixpoint slashes (n : nat) : string :=
  match n with
  | O => EmptyString
  | S n' => String "/" (slashes n')
  end.

(** The payload is a [dict]. *)
Definition is_dict (v : Json) : bool :=
  match v with
  | JObj _ => true
  | _ => false
  end.

(** The line feed. *)
Definition nl : string := String (ascii_of_nat 10) EmptyString.

(** ['=' * 50]. *)
Definition separator : string :=
  "==================================================".

Section Display.

(** [sys.get_int_max_str_digits()]: the largest number of digits of an
    [int] that the interpreter turns into text, 0 for no limit (4300 by
    default from CPython 3.11 on; the interpreter accepts 0 and the
    values from 640 on). *)
Variable int_max_str_digits : nat.

(** [str(v)] for a [float], a [list] or a [dict]: the text that Python
    prints for them, or what it raises, is left to the interpreter. *)
Variable str_other : Json -> Result string.

(** The [int] has no more digits than the interpreter turns into text. *)
Definition int_fits (n : Z) : bool :=
  negb ((0 <? int_max_str_digits)%nat
        && (int_max_str_digits <? String.length (str_int (Z.abs n)))%nat).

(** What an f-string puts in place of [{v}], or what formatting [v]
    raises. *)
Definition py_format (v : Json) : Result string :=
  match v with
  | JNull => Return "None"
  | JBool true => Return "True"
  | JBool false => Return "False"
  | JInt n => if int_fits n then Return (str_int n) else Raise ValueError
  | JStr s => Return s
  | _ => str_other v
  end.

(** The values whose text is the same under every interpreter setting:
    [None], a [bool], a [str], and an [int] within the digit limit. *)
Definition displayable (v : Json) : bool :=
  match v with
  | JNull | JBool _ | JStr _ => true
  | JInt n => int_fits n
  | _ => false
  end.

(** The f-string of [format_review]: the fields are formatted from left
    to right, and the first that cannot be formatted raises. *)
Definition render (title author stars created_at text : Json)
  : Result string :=
  match py_format title with
  | Raise r => Raise r
  | Return title' =>
  match py_format author with
  | Raise r => Raise r
  | Return author' =>
  match py_format stars with
  | Raise r => Raise r
  | Return stars' =>
  match py_format created_at with
  | Raise r => Raise r
  | Return created_at' =>
  match py_format text with
  | Raise r => Raise r
  | Return text' =>
      Return (nl ++ "Title: " ++ title' ++ nl
                 ++ "Author: " ++ author' ++ nl
                 ++ "Rating: " ++ stars' ++ "/5 stars" ++ nl
                 ++ "Date: " ++ created_at' ++ nl
                 ++ "Review: " ++ text' ++ nl
                 ++ separator ++ nl)
  end end end end end.

(** [format_review]. *)
Definition format_review (review : Json) : Result string :=
  match py_get review "title" (JStr "No title") with
  | Raise r => Raise r
  | Return title =>
  match py_get review "text" (JStr "No text") with
  | Raise r => Raise r
  | Return text =>
  match py_get review "stars" (JInt 0) with
  | Raise r => Raise r
  | Return stars =>
  match py_get review "createdAt" (JStr "Unknown date") with
  | Raise r => Raise r
  | Return created_at =>
  match py_get review "consumer" (JObj []) with
  | Raise r => Raise r
  | Return consumer =>
  match py_get consumer "displayName" (JStr "Anonymous") with
  | Raise r => Raise r
  | Return author => render title author stars created_at text
  end end end end end end.

(** The entries of a review that [format_review] shows, where present. *)
Definition present (key : string) (fields : list (string * Json))
  : list Json :=
  match dict_lookup key fields with
  | Some v => [v]
  | None => []
  end.

Definition shown_values (review : Json) : list Json :=
  match review with
  | JObj fields =>
      present "title" fields ++ present "text" fields
        ++ present "stars" fields ++ present "createdAt" fields
        ++ match dict_lookup "consumer" fields with
           | Some (JObj consumer) => present "displayName" consumer
           | _ => []
           end
  | _ => []
  end.

End Display.

(** The lines printed in a trace, in order. *)
Fixpoint prints_of (t : list Event) : list string :=
  match t with
  | [] => []
  | EvPrint line :: t' => line :: prints_of t'
  | _ :: t' => prints_of t'
  end.

(** The line that [get_all_reviews] prints for an API error on a page. *)
Definition error_line (page : Z) (e : TrustpilotAPIError) : string :=
  "Error fetching page " ++ str_int page ++ ": " ++ message e.

(** * Properties *)

(** ** The request executor, step by step *)

Section ExecutorFacts.

Variable transport : Transport.
Variable config : TrustpilotConfig.

(** A valid delay is one that [time.sleep] takes. *)
Lemma sleep_error_valid (d : Q) : valid_delay d <-> sleep_error d = None.
Proof.
  unfold valid_delay, sleep_error. cbv zeta.
  rewrite <- !Qle_bool_iff.
  destruct (Qle_bool 0 d) eqn:H0;
    destruct (Qle_bool (d * (1000000000 # 1)) (9223372036854775807 # 1))
      eqn:Hmax;
    destruct (Qle_bool (- (9223372036854775808 # 1)) (d * (1000000000 # 1)))
      eqn:Hmin;
    cbn; try (split; [intros [? ?] | intros ?]; discriminate);
    try (split; [reflexivity | now split]).
  (* a delay from 0 on is above the lower bound *)
  exfalso. apply Qle_bool_iff in H0.
  assert (Hle : (- (9223372036854775808 # 1) <= d * (1000000000 # 1))%Q).
  { apply Qle_trans with 0%Q; [discriminate |].
    apply Qmult_le_0_compat; [exact H0 | discriminate]. }
  apply Qle_bool_iff in Hle. congruence.
Qed.

(** [time.sleep] raises nothing but [OverflowError] and [ValueError]. *)
Lemma sleep_error_kind (d : Q) (r : Raised) :
  sleep_error d = Some r -> r = OverflowError \/ r = ValueError.
Proof.
  unfold sleep_error. cbv zeta.
  destruct (negb _); [intros [= <-]; now left |].
  destruct (negb _); [intros [= <-]; now right | discriminate].
Qed.

Lemma _make_request_valid (o : GetOutcome) :
  valid_delay (rate_limit_delay config) ->
  make_request_result config o =
  match o with
  | GetResponse response => on_exception (on_status response)
  | GetRaises exc => on_exception (Raise (LibraryError exc))
  end.
Proof.
  intros Hvalid%sleep_error_valid. unfold make_request_result.
  now rewrite Hvalid.
Qed.

Lemma _make_request_run (endpoint : string) (params : Params) (w : World) :
  let r := mkRequest (url_of config endpoint) params (timeout config) in
  let o := transport (calls w) r in
  _make_request transport config endpoint params w =
    (make_request_result config o,
     {| calls := S (calls w);
        trace := trace w ++ events_of_call config r o |}).
Proof.
  unfold _make_request, bind, session_get, time_sleep, emit, ret,
    make_request_result, events_of_call; simpl.
  destruct (transport (calls w) _) as [response | exc];
    [destruct (sleep_error (rate_limit_delay config)) |]; simpl.
  - reflexivity.
  - now rewrite <- app_assoc.
  - reflexivity.
Qed.

Lemma get_reviews_100_run (buid : string) (page : Z) (w : World) :
  let r := reviews_request config buid page in
  let o := transport (calls w) r in
  get_reviews transport config buid 100 page w =
    (make_request_result config o,
     {| calls := S (calls w);
        trace := trace w ++ events_of_call config r o |}).
Proof.
  unfold get_reviews. rewrite _make_request_run. reflexivity.
Qed.

(** A payload comes from a response only, so a pause follows the call. *)
(** The [except] clauses turn no exception into a value. *)
Lemma on_exception_Raise {A} (r : Raised) (a : A) :
  on_exception (Raise r) <> Return a.
Proof.
  destruct r as [e | exc | | | |]; cbn; try discriminate.
  destruct (isinstance_Timeout exc); [discriminate |].
  destruct (isinstance_ConnectionError exc); [discriminate |].
  destruct (isinstance_RequestException exc); discriminate.
Qed.

Lemma events_of_call_Return (r : Request) (o : GetOutcome) (payload : Json) :
  make_request_result config o = Return payload ->
  events_of_call config r o = [EvGet r; EvSleep (rate_limit_delay config)].
Proof.
  unfold make_request_result, events_of_call.
  destruct o as [response | exc].
  - destruct (sleep_error (rate_limit_delay config)) as [raised |];
      [| reflexivity].
    intros H. now apply on_exception_Raise in H.
  - intros H. now apply on_exception_Raise in H.
Qed.

Lemma requests_of_app (t1 t2 : list Event) :
  requests_of (t1 ++ t2) = (requests_of t1 ++ requests_of t2)%list.
Proof.
  induction t1 as [| [r | d | l] t1 IH]; simpl; now rewrite ?IH.
Qed.

Lemma sleeps_of_app (t1 t2 : list Event) :
  sleeps_of (t1 ++ t2) = (sleeps_of t1 ++ sleeps_of t2)%list.
Proof.
  induction t1 as [| [r | d | l] t1 IH]; simpl; now rewrite ?IH.
Qed.

Lemma requests_of_call (r : Request) (o : GetOutcome) :
  requests_of (events_of_call config r o) = [r].
Proof.
  unfold events_of_call.
  now destruct o, (sleep_error (rate_limit_delay config)).
Qed.

End ExecutorFacts.

(** The default delay, a tenth of a second, is one that [time.sleep]
    takes. *)
Lemma demo_delay_valid : valid_delay (rate_limit_delay demo_config).
Proof. split; unfold Qle; simpl; lia. Qed.

(** ** The pagination loop, pass by pass *)

(** Call [j] after the next call is call [j + 1] after this one, and
    likewise for the pages. *)
Ltac next_page w page j :=
  replace (S (calls w) + j)%nat with (calls w + S j)%nat by lia;
  replace (page + 1 + Z.of_nat j) with (page + Z.of_nat (S j)) by lia.

Section LoopFacts.

Variable transport : Transport.
Variable config : TrustpilotConfig.
Variable buid : string.

Local Abbreviation answer_at := (answer_at transport config buid).
Local Abbreviation succeeds_at := (succeeds_at transport config buid).
Local Abbreviation reviews_request := (reviews_request config buid).
Local Abbreviation page_events := (page_events config buid).
Local Abbreviation loop := (get_all_reviews_loop transport config).
Local Abbreviation body := (loop_body transport config buid).

Lemma on_page_full (acc : list Json) (page : Z) (payload : Json)
    (reviews : list Json) :
  reviews_of_payload payload = Some reviews ->
  (100 <= List.length reviews)%nat ->
  on_page acc page payload = Continue (acc ++ reviews) (page + 1).
Proof.
  unfold reviews_of_payload, on_page. intros Hp Hlen.
  destruct (py_get payload "reviews" (JArr [])) as [[| | | | | items |] |];
    try discriminate.
  injection Hp as ->.
  destruct reviews as [| r reviews]; [simpl in Hlen; lia |].
  cbn [truthy negb py_extend py_iter py_len].
  destruct (Z.ltb_spec (Z.of_nat (List.length (r :: reviews))) 100);
    [lia | reflexivity].
Qed.

Lemma on_page_short (acc : list Json) (page : Z) (payload : Json)
    (reviews : list Json) :
  reviews_of_payload payload = Some reviews ->
  (List.length reviews < 100)%nat ->
  on_page acc page payload = Break (acc ++ reviews).
Proof.
  unfold reviews_of_payload, on_page. intros Hp Hlen.
  destruct (py_get payload "reviews" (JArr [])) as [[| | | | | items |] |];
    try discriminate.
  injection Hp as ->.
  destruct reviews as [| r reviews].
  - simpl. now rewrite app_nil_r.
  - cbn [truthy negb py_extend py_iter py_len].
    destruct (Z.ltb_spec (Z.of_nat (List.length (r :: reviews))) 100);
      [reflexivity | lia].
Qed.

(** A pass continues with the next page or not at all. *)
Lemma on_page_Continue (acc acc' : list Json) (page page' : Z)
    (payload : Json) :
  on_page acc page payload = Continue acc' page' -> page' = page + 1.
Proof.
  unfold on_page.
  destruct (py_get payload "reviews" (JArr [])) as [reviews |]; [| discriminate].
  destruct (negb (truthy reviews)); [discriminate |].
  destruct (py_extend acc reviews); [| discriminate].
  destruct (py_len reviews) as [n |]; [| discriminate].
  destruct (n <? 100); [discriminate |].
  now intros [= _ <-].
Qed.

Lemma body_limit (max_pages : option Z) (acc : list Json) (page : Z)
    (w : World) :
  page_limit_reached max_pages page = true ->
  body max_pages acc page w = (Break acc, w).
Proof. unfold loop_body. now intros ->. Qed.

Lemma body_payload (max_pages : option Z) (acc : list Json) (page : Z)
    (w : World) (payload : Json) :
  page_limit_reached max_pages page = false ->
  answer_at (calls w) page = Return payload ->
  body max_pages acc page w =
    (on_page acc page payload,
     {| calls := S (calls w);
        trace := trace w ++ [EvGet (reviews_request page);
                             EvSleep (rate_limit_delay config)] |}).
Proof.
  unfold loop_body, answer_at. intros -> Ha.
  unfold bind. rewrite get_reviews_100_run. cbv zeta.
  rewrite (events_of_call_Return _ _ _ _ Ha), Ha. reflexivity.
Qed.

Lemma body_api_error (max_pages : option Z) (acc : list Json) (page : Z)
    (w : World) (e : TrustpilotAPIError) :
  page_limit_reached max_pages page = false ->
  answer_at (calls w) page = Raise (ApiError e) ->
  body max_pages acc page w =
    (Break acc,
     {| calls := S (calls w);
        trace := trace w
                 ++ events_of_call config (reviews_request page)
                      (transport (calls w) (reviews_request page))
                 ++ [EvPrint ("Error fetching page " ++ str_int page ++ ": "
                                ++ message e)] |}).
Proof.
  unfold loop_body, answer_at. intros -> Ha.
  unfold bind. rewrite get_reviews_100_run. cbv zeta.
  rewrite Ha. simpl. now rewrite <- app_assoc.
Qed.

Lemma loop_S (fuel : nat) (max_pages : option Z) (acc : list Json) (page : Z)
    (w : World) :
  loop (S fuel) buid max_pages acc page w =
    let (step, w') := body max_pages acc page w in
    match step with
    | Break acc' => (Some (Return acc'), w')
    | Propagate r => (Some (Raise r), w')
    | Continue acc' page' => loop fuel buid max_pages acc' page' w'
    end.
Proof.
  simpl. unfold bind.
  destruct (body max_pages acc page w) as [[acc' | acc' page' | r] w'];
    reflexivity.
Qed.

(** The loop passes through consecutive full pages, collecting them. *)
Lemma loop_full_pages (max_pages : option Z) (pages : list (list Json)) :
  forall (fuel : nat) (acc : list Json) (page : Z) (w : World),
  (forall j reviews, nth_error pages j = Some reviews ->
     succeeds_at (calls w + j) (page + Z.of_nat j) reviews /\
     (100 <= List.length reviews)%nat) ->
  (forall j, (j < List.length pages)%nat ->
     page_limit_reached max_pages (page + Z.of_nat j) = false) ->
  loop (List.length pages + fuel) buid max_pages acc page w =
  loop fuel buid max_pages (acc ++ List.concat pages)
       (page + Z.of_nat (List.length pages))
       {| calls := calls w + List.length pages;
          trace := trace w ++ page_events page (List.length pages) |}.
Proof.
  induction pages as [| reviews pages IH]; intros fuel acc page w Hpages Hlimit.
  - simpl. rewrite !app_nil_r, Z.add_0_r, Nat.add_0_r. now destruct w.
  - destruct (Hpages 0%nat reviews eq_refl) as [(payload & Ha & Hr) Hlen].
    rewrite Nat.add_0_r, Z.add_0_r in Ha.
    cbn [List.length Nat.add]. rewrite loop_S.
    rewrite (body_payload _ _ _ _ payload); [| | exact Ha].
    2:{ specialize (Hlimit 0%nat). rewrite Z.add_0_r in Hlimit.
        apply Hlimit. simpl. lia. }
    rewrite (on_page_full _ _ _ _ Hr Hlen).
    rewrite IH.
    + cbn [calls trace List.concat page_events].
      rewrite <- !app_assoc. cbn [app].
      replace (page + 1 + Z.of_nat (List.length pages))
        with (page + Z.of_nat (S (List.length pages))) by lia.
      replace (S (calls w) + List.length pages)%nat
        with (calls w + S (List.length pages))%nat by lia.
      reflexivity.
    + intros j rs Hj. cbn [calls]. next_page w page j.
      now apply Hpages.
    + intros j Hj.
      replace (page + 1 + Z.of_nat j) with (page + Z.of_nat (S j)) by lia.
      apply Hlimit. simpl. lia.
Qed.

End LoopFacts.

(** ** Sample runs *)

Example str_int_samples :
  str_int 500 = "500" /\ str_int 0 = "0" /\ str_int (-3) = "-3".
Proof. repeat split. Qed.

Example url_of_strips_leading_slashes :
  url_of demo_config "//business-units/find" =
  "https://api.trustpilot.com/v1/business-units/find".
Proof. reflexivity. Qed.

Example sleep_error_samples :
  sleep_error (1 # 10) = None
  /\ sleep_error 0 = None
  /\ sleep_error (- (1 # 10)) = Some ValueError
  /\ sleep_error (10000000000 # 1) = Some OverflowError
  /\ sleep_error (- (10000000000 # 1)) = Some OverflowError.
Proof. repeat split. Qed.

(** With a negative delay [time.sleep] raises after the first response:
    one GET call, no pause, and [ValueError] leaves [get_all_reviews]. *)
Example get_all_reviews_negative_delay :
  get_all_reviews three_pages
    (mkConfig "key" "https://api.trustpilot.com/v1" 30 (- (1 # 10)))
    3 "46d6a890000064000500e0c3" None init_world =
    (Some (Raise ValueError),
     {| calls := 1;
        trace := [EvGet (reviews_request demo_config
                           "46d6a890000064000500e0c3" 1)] |}).
Proof. reflexivity. Qed.

(** A refused connection on page 1: one GET call, no pause, the error
    printed, an empty list returned. *)
Example get_all_reviews_connection_refused :
  get_all_reviews
    (answers_with (GetRaises (mkExc ConnectionError "Connection refused")))
    demo_config 1 "46d6a890000064000500e0c3" None init_world =
    (Some (Return []),
     {| calls := 1;
        trace := [EvGet (reviews_request demo_config
                           "46d6a890000064000500e0c3" 1);
                  EvPrint
                    "Error fetching page 1: Connection error occurred"] |}).
Proof. reflexivity. Qed.

(** A body that decodes to a list, not a [dict]: [response.get] raises,
    and the exception leaves [get_all_reviews]. *)
Example get_all_reviews_payload_not_a_dict :
  fst (get_all_reviews
         (answers_with (GetResponse (mkResponse 200 "[]"
                                       (JsonValue (JArr [])))))
         demo_config 1 "46d6a890000064000500e0c3" None init_world) =
    Some (Raise AttributeError).
Proof. reflexivity. Qed.

(** A negative maximum page count stops the loop before the first
    request. *)
Example get_all_reviews_negative_limit :
  get_all_reviews three_pages demo_config 1 "46d6a890000064000500e0c3"
                  (Some (-1)) init_world =
    (Some (Return []), init_world).
Proof. reflexivity. Qed.

(** ** The stated properties of [get_all_reviews] *)

Lemma page_limit_None (page : Z) : page_limit_reached None page = false.
Proof. reflexivity. Qed.

Lemma page_limit_earlier (max_pages : option Z) (page page' : Z) :
  page_limit_reached max_pages page = false ->
  page' <= page ->
  page_limit_reached max_pages page' = false.
Proof.
  destruct max_pages as [m |]; simpl; [| reflexivity].
  destruct (m =? 0); [reflexivity |].
  rewrite !Z.gtb_ltb. intros H%Z.ltb_ge Hle. apply Z.ltb_ge. lia.
Qed.

(** C2. With no maximum page count and a delay that [time.sleep] takes,
    on a stream whose page 1 has 100 reviews, page 2 has 100 reviews and
    page 3 has 42 reviews, [get_all_reviews] returns the 242 reviews in
    page order and issues exactly three GET calls, for the pages 1, 2
    and 3, each with [perPage] 100. *)
Theorem get_all_reviews_three_pages
    (transport : Transport) (config : TrustpilotConfig) (buid : string)
    (w : World) (r1 r2 r3 : list Json) (fuel : nat) :
  valid_delay (rate_limit_delay config) ->
  page_succeeds transport config buid w 1 r1 -> List.length r1 = 100%nat ->
  page_succeeds transport config buid w 2 r2 -> List.length r2 = 100%nat ->
  page_succeeds transport config buid w 3 r3 -> List.length r3 = 42%nat ->
  (3 <= fuel)%nat ->
  let request page :=
    mkRequest (base_url config ++ "/business-units/" ++ buid ++ "/reviews")
              (Some [("perPage", PInt 100); ("page", PInt page)])
              (timeout config) in
  let pause := EvSleep (rate_limit_delay config) in
  get_all_reviews transport config fuel buid None w =
    (Some (Return (r1 ++ r2 ++ r3)%list),
     {| calls := calls w + 3;
        trace := trace w ++ [EvGet (request 1); pause;
                             EvGet (request 2); pause;
                             EvGet (request 3); pause] |})
  /\ List.length (r1 ++ r2 ++ r3) = 242%nat.
Proof.
  intros _ H1 L1 H2 L2 H3 L3 Hfuel request pause.
  split; [| rewrite !length_app; lia].
  destruct fuel as [| [| [| fuel]]]; try lia.
  unfold get_all_reviews.
  change (S (S (S fuel))) with (List.length [r1; r2] + S fuel)%nat.
  rewrite loop_full_pages.
  - rewrite loop_S.
    destruct H3 as (payload & Ha & Hr). cbn [calls Nat.pred] in Ha.
    rewrite (body_payload _ _ _ _ _ _ _ payload);
      [| reflexivity | exact Ha].
    rewrite (on_page_short _ _ _ _ Hr) by lia.
    cbn [List.length List.concat page_events trace calls].
    rewrite <- !app_assoc. cbn [app].
    replace (S (calls w + 2)) with (calls w + 3)%nat by lia.
    reflexivity.
  - intros [| [| j]] rs Hj; cbn in Hj; try (injection Hj as <-).
    + split; [exact H1 | lia].
    + split; [exact H2 | lia].
    + now destruct j.
  - intros j _. apply page_limit_None.
Qed.

Lemma get_all_reviews_three_pages_witness :
  get_all_reviews three_pages demo_config 3 "46d6a890000064000500e0c3" None
                  init_world =
    (Some (Return (sample_reviews 1 100 ++ sample_reviews 101 100
                     ++ sample_reviews 201 42)%list),
     {| calls := 3;
        trace := page_events demo_config "46d6a890000064000500e0c3" 1 3 |})
  /\ List.length (sample_reviews 1 100 ++ sample_reviews 101 100
                    ++ sample_reviews 201 42) = 242%nat.
Proof.
  apply (get_all_reviews_three_pages three_pages demo_config
           "46d6a890000064000500e0c3" init_world);
    try exact demo_delay_valid; try reflexivity; try lia;
    eexists; split; reflexivity.
Defined.

(** C7. With a maximum page count of 1 and a delay that [time.sleep]
    takes, on a stream whose page 1 has 100 reviews (whatever pages 2
    and 3 hold), [get_all_reviews] returns the 100 reviews of page 1 and
    issues exactly one GET call. *)
Theorem get_all_reviews_max_pages_1
    (transport : Transport) (config : TrustpilotConfig) (buid : string)
    (w : World) (r1 : list Json) (fuel : nat) :
  valid_delay (rate_limit_delay config) ->
  page_succeeds transport config buid w 1 r1 -> List.length r1 = 100%nat ->
  (2 <= fuel)%nat ->
  get_all_reviews transport config fuel buid (Some 1) w =
    (Some (Return r1),
     {| calls := calls w + 1;
        trace := trace w ++ [EvGet (reviews_request config buid 1);
                             EvSleep (rate_limit_delay config)] |})
  /\ requests_of (trace w ++ [EvGet (reviews_request config buid 1);
                              EvSleep (rate_limit_delay config)]) =
     (requests_of (trace w) ++ [reviews_request config buid 1])%list.
Proof.
  intros _ H1 L1 Hfuel.
  split; [| now rewrite requests_of_app].
  destruct fuel as [| [| fuel]]; try lia.
  unfold get_all_reviews.
  change (S (S fuel)) with (List.length [r1] + S fuel)%nat.
  rewrite loop_full_pages.
  - rewrite loop_S, body_limit by reflexivity.
    cbn [List.length List.concat page_events app].
    now rewrite app_nil_r.
  - intros [| j] rs Hj; cbn in Hj; [injection Hj as <- | now destruct j].
    split; [exact H1 | lia].
  - intros [| j] Hj; [reflexivity | simpl in Hj; lia].
Qed.

Lemma get_all_reviews_max_pages_1_witness :
  get_all_reviews three_pages demo_config 2 "46d6a890000064000500e0c3"
                  (Some 1) init_world =
    (Some (Return (sample_reviews 1 100)),
     {| calls := 1;
        trace := page_events demo_config "46d6a890000064000500e0c3" 1 1 |})
  /\ requests_of (page_events demo_config "46d6a890000064000500e0c3" 1 1) =
     [reviews_request demo_config "46d6a890000064000500e0c3" 1].
Proof.
  apply (get_all_reviews_max_pages_1 three_pages demo_config
           "46d6a890000064000500e0c3" init_world);
    try exact demo_delay_valid; try reflexivity; try lia;
    eexists; split; reflexivity.
Defined.

Lemma requests_of_page_events (config : TrustpilotConfig) (buid : string)
    (n : nat) :
  forall page,
  requests_of (page_events config buid page n) =
  map (fun j => reviews_request config buid (page + Z.of_nat j)) (seq 0 n).
Proof.
  induction n as [| n IH]; intros page; [reflexivity |].
  cbn [page_events requests_of seq map]. rewrite IH, Z.add_0_r. f_equal.
  rewrite <- seq_shift, map_map. apply map_ext. intros j.
  f_equal. lia.
Qed.

Lemma page_requests_events (config : TrustpilotConfig) (buid : string)
    (n : nat) :
  requests_of (page_events config buid 1 n) = page_requests config buid n.
Proof.
  rewrite requests_of_page_events. unfold page_requests.
  rewrite <- seq_shift, map_map. apply map_ext. intros j. f_equal. lia.
Qed.

Lemma page_requests_S (config : TrustpilotConfig) (buid : string) (n : nat) :
  page_requests config buid (S n) =
  (page_requests config buid n
     ++ [reviews_request config buid (Z.of_nat (S n))])%list.
Proof. unfold page_requests. now rewrite seq_S, map_app. Qed.

(** C1, as amended.  With a delay that [time.sleep] takes, when every
    page before page [k] succeeds with at least 100 reviews, the request
    for page [k] fails with an API error and the maximum page count does
    not stop the loop before page [k], [get_all_reviews] issues exactly
    the requests for the pages 1 to [k], prints the error, raises nothing
    and returns the reviews of the pages 1 to [k - 1] in page order. *)
Theorem get_all_reviews_partial_on_error
    (transport : Transport) (config : TrustpilotConfig) (buid : string)
    (max_pages : option Z) (w : World) (pages : list (list Json))
    (e : TrustpilotAPIError) (fuel : nat) :
  let k := S (List.length pages) in
  valid_delay (rate_limit_delay config) ->
  (forall j reviews, nth_error pages j = Some reviews ->
     page_succeeds transport config buid w (S j) reviews /\
     (100 <= List.length reviews)%nat) ->
  page_fails transport config buid w k e ->
  page_limit_reached max_pages (Z.of_nat k) = false ->
  (k <= fuel)%nat ->
  exists w',
    get_all_reviews transport config fuel buid max_pages w =
      (Some (Return (List.concat pages)), w') /\
    calls w' = (calls w + k)%nat /\
    trace w' =
      (trace w ++ page_events config buid 1 (List.length pages)
         ++ events_of_call config (reviews_request config buid (Z.of_nat k))
              (page_outcome transport config buid w k)
         ++ [EvPrint ("Error fetching page " ++ str_int (Z.of_nat k) ++ ": "
                        ++ message e)])%list /\
    requests_of (trace w') =
      (requests_of (trace w) ++ page_requests config buid k)%list.
Proof.
  intros k _ Hpages Hfail Hlimit Hfuel.
  destruct (Nat.le_exists_sub _ _ Hfuel) as (extra & -> & _).
  replace (extra + k)%nat with (List.length pages + S extra)%nat
    by (subst k; lia).
  unfold get_all_reviews. rewrite loop_full_pages.
  - rewrite loop_S.
    replace (1 + Z.of_nat (List.length pages)) with (Z.of_nat k)
      by (subst k; lia).
    rewrite (body_api_error _ _ _ _ _ _ _ e); [| exact Hlimit |].
    + eexists; split; [reflexivity |].
      cbn [calls trace app]. split; [subst k; lia |].
      unfold page_outcome. cbn [Nat.pred calls].
      split; [now rewrite <- !app_assoc |].
      rewrite !requests_of_app, requests_of_call, page_requests_events.
      subst k. now rewrite page_requests_S, <- !app_assoc.
    + exact Hfail.
  - intros j rs Hj. destruct (Hpages j rs Hj) as [Hs Hl].
    split; [| exact Hl]. unfold page_succeeds in Hs.
    replace (1 + Z.of_nat j) with (Z.of_nat (S j)) by lia. exact Hs.
  - intros j Hj. apply (page_limit_earlier _ (Z.of_nat k));
      [exact Hlimit | subst k; lia].
Qed.

Lemma get_all_reviews_partial_on_error_witness :
  exists w',
    get_all_reviews rate_limited_after_one demo_config 2
                    "46d6a890000064000500e0c3" None init_world =
      (Some (Return (List.concat [sample_reviews 1 100])), w') /\
    calls w' = 2%nat /\
    trace w' =
      (page_events demo_config "46d6a890000064000500e0c3" 1 1
         ++ [EvGet (reviews_request demo_config "46d6a890000064000500e0c3" 2);
             EvSleep (1 # 10)]
         ++ [EvPrint "Error fetching page 2: Rate limit exceeded. Please wait before making more requests."])%list /\
    requests_of (trace w') =
      page_requests demo_config "46d6a890000064000500e0c3" 2.
Proof.
  apply (get_all_reviews_partial_on_error rate_limited_after_one demo_config
           "46d6a890000064000500e0c3" None init_world
           [sample_reviews 1 100]
           (mkApiError
              "Rate limit exceeded. Please wait before making more requests."
              None)
           2).
  - exact demo_delay_valid.
  - intros [| [| j]] reviews Hj; try discriminate Hj.
    injection Hj as <-. split; [| simpl; lia].
    eexists; split; reflexivity.
  - reflexivity.
  - reflexivity.
  - simpl; lia.
Defined.

(** C1, as worded, fails: with a single review on page 1 and an API
    error waiting on page 2, the loop ends after page 1 (fewer than 100
    reviews) and the request for page 2 is never issued. *)
Lemma partial_result_needs_full_pages : ~ partial_result_for_any_page_sizes.
Proof.
  intros H.
  destruct (H short_page_then_error demo_config "46d6a890000064000500e0c3"
              init_world (sample_reviews 1 1) []
              (mkApiError
                 "Rate limit exceeded. Please wait before making more requests."
                 None))
    as (fuel & w' & Hrun & Hreq).
  - exact demo_delay_valid.
  - discriminate.
  - intros [| [| j]] reviews Hj; try discriminate Hj.
    injection Hj as <-. eexists; split; reflexivity.
  - reflexivity.
  - destruct fuel as [| fuel]; [discriminate Hrun |].
    unfold get_all_reviews in Hrun. rewrite loop_S in Hrun.
    cbn in Hrun. injection Hrun as <-.
    cbn in Hreq. discriminate Hreq.
Qed.

(** The run on that stream: one pass, one request. *)
Example short_page_then_error_run (fuel : nat) :
  get_all_reviews short_page_then_error demo_config (S fuel)
                  "46d6a890000064000500e0c3" None init_world =
    (Some (Return (sample_reviews 1 1)),
     {| calls := 1;
        trace := [EvGet (reviews_request demo_config
                           "46d6a890000064000500e0c3" 1);
                  EvSleep (1 # 10)] |}).
Proof. unfold get_all_reviews. rewrite loop_S. reflexivity. Qed.

(** ** Termination of the pagination loop *)

Section Termination.

Variable transport : Transport.
Variable config : TrustpilotConfig.
Variable buid : string.

Local Abbreviation answer_at := (answer_at transport config buid).
Local Abbreviation succeeds_at := (succeeds_at transport config buid).
Local Abbreviation stops_at := (stops_at transport config buid).
Local Abbreviation well_formed_at := (well_formed_at transport config buid).
Local Abbreviation loop := (get_all_reviews_loop transport config).
Local Abbreviation body := (loop_body transport config buid).

(** A pass that goes on has fetched a payload, and goes on with the next
    page and the next GET call. *)
Lemma body_Continue (max_pages : option Z) (acc acc' : list Json)
    (page page' : Z) (w w' : World) :
  body max_pages acc page w = (Continue acc' page', w') ->
  page_limit_reached max_pages page = false /\
  page' = page + 1 /\
  calls w' = S (calls w) /\
  exists payload,
    answer_at (calls w) page = Return payload /\
    on_page acc page payload = Continue acc' page'.
Proof.
  unfold loop_body.
  destruct (page_limit_reached max_pages page); [discriminate |].
  unfold bind. rewrite get_reviews_100_run. cbv zeta.
  fold (reviews_request config buid page).
  unfold answer_at.
  destruct (make_request_result config
              (transport (calls w) (reviews_request config buid page)))
    as [payload | [e | e | | | |]]; try discriminate.
  intros [= Hstep <-]. repeat split; [| exists payload; now split].
  now apply on_page_Continue in Hstep.
Qed.

(** With a maximum page count other than 0 the loop ends within
    [max_pages + 2 - page] passes. *)
Lemma loop_bounded (m : Z) (n : nat) :
  forall (acc : list Json) (page : Z) (w : World),
  m <> 0 ->
  m + 1 - page <= Z.of_nat n ->
  fst (loop (S n) buid (Some m) acc page w) <> None.
Proof.
  induction n as [| n IH]; intros acc page w Hm Hn; rewrite loop_S.
  - rewrite body_limit; [discriminate |].
    simpl. destruct (Z.eqb_spec m 0); [contradiction |].
    rewrite Z.gtb_ltb. apply Z.ltb_lt. lia.
  - destruct (body (Some m) acc page w) as [[acc' | acc' page' | r] w'] eqn:E;
      try discriminate.
    apply body_Continue in E. destruct E as (_ & -> & _).
    apply IH; [exact Hm | lia].
Qed.

Lemma stop_ends_loop (n : nat) :
  forall (j : nat) (acc : list Json) (page : Z) (w : World),
  (j < n)%nat ->
  stops_at (calls w + j) (page + Z.of_nat j) ->
  fst (loop n buid None acc page w) <> None.
Proof.
  induction n as [| n IH]; intros j acc page w Hj Hstop; [lia |].
  rewrite loop_S.
  destruct (body None acc page w) as [[acc' | acc' page' | r] w'] eqn:E;
    try discriminate.
  apply body_Continue in E.
  destruct E as (_ & -> & Hcalls & payload & Ha & Hcont).
  destruct j as [| j].
  - exfalso. rewrite Nat.add_0_r, Z.add_0_r in Hstop.
    destruct Hstop as [(e & He) | [Hs | (reviews & Hs & Hlen)]];
      [congruence | assert (Hlen : (List.length (@nil Json) < 100)%nat)
                      by (simpl; lia) |];
      destruct Hs as (p & Hp & Hr).
    + rewrite Ha in Hp. injection Hp as <-.
      rewrite (on_page_short _ _ _ _ Hr Hlen) in Hcont. discriminate.
    + rewrite Ha in Hp. injection Hp as <-.
      rewrite (on_page_short _ _ _ _ Hr Hlen) in Hcont. discriminate.
  - apply (IH j); [lia |].
    rewrite Hcalls. next_page w page j.
    exact Hstop.
Qed.

Lemma loop_ends_at_stop (n : nat) :
  forall (acc : list Json) (page : Z) (w : World),
  (forall j, well_formed_at (calls w + j) (page + Z.of_nat j)) ->
  fst (loop n buid None acc page w) <> None ->
  exists j, (j < n)%nat /\ stops_at (calls w + j) (page + Z.of_nat j).
Proof.
  induction n as [| n IH]; intros acc page w Hwf Hend;
    [now contradiction Hend |].
  destruct (Hwf 0%nat) as [Herr | (reviews & Hs)].
  - exists 0%nat. split; [lia | now left].
  - destruct (Nat.lt_ge_cases (List.length reviews) 100) as [Hlt | Hge].
    + exists 0%nat. split; [lia |]. right; right. now exists reviews.
    + destruct Hs as (payload & Ha & Hr).
      rewrite Nat.add_0_r, Z.add_0_r in Ha.
      rewrite loop_S in Hend.
      rewrite (body_payload _ _ _ _ _ _ _ payload) in Hend;
        [| reflexivity | exact Ha].
      rewrite (on_page_full _ _ _ _ Hr Hge) in Hend.
      apply IH in Hend.
      * destruct Hend as (j & Hj & Hstop). exists (S j). split; [lia |].
        cbn [calls] in Hstop.
        replace (calls w + S j)%nat with (S (calls w) + j)%nat by lia.
        replace (page + Z.of_nat (S j)) with (page + 1 + Z.of_nat j) by lia.
        exact Hstop.
      * intros j. cbn [calls]. next_page w page j.
        apply Hwf.
Qed.

(** On any stream whatever, the loop with no maximum page count is still
    running after [n] passes exactly when each of the first [n] calls
    lets it go on. *)
Lemma loop_running_iff (n : nat) :
  forall (acc : list Json) (page : Z) (w : World),
  fst (loop n buid None acc page w) = None <->
  forall j, (j < n)%nat ->
    continues_at transport config buid (calls w + j) (page + Z.of_nat j).
Proof.
  induction n as [| n IH]; intros acc page w.
  { split; [intros _ j Hj; lia | reflexivity]. }
  rewrite loop_S.
  destruct (body None acc page w) as [step w'] eqn:E.
  assert (Hhere : continues_at transport config buid (calls w) page ->
                  exists acc', step = Continue acc' (page + 1) /\
                               calls w' = S (calls w)).
  { intros (payload & reviews & items & len & Ha & Hg & Ht & Hi & Hl & Hn).
    rewrite (body_payload _ _ _ _ _ _ _ payload) in E;
      [| reflexivity | exact Ha].
    injection E as <- <-. unfold on_page, py_extend.
    rewrite Hg, Ht, Hi, Hl. cbn [negb].
    destruct (Z.ltb_spec len 100); [lia |]. now eexists. }
  split.
  - intros Hrun. destruct step as [acc' | acc' page' | r]; try discriminate.
    apply body_Continue in E.
    destruct E as (_ & -> & Hcalls & payload & Ha & Hcont).
    intros [| j] Hj.
    + rewrite Nat.add_0_r, Z.add_0_r. unfold on_page in Hcont.
      destruct (py_get payload "reviews" (JArr [])) as [reviews |] eqn:Hg;
        [| discriminate].
      destruct (truthy reviews) eqn:Ht; [| discriminate]. cbn [negb] in Hcont.
      unfold py_extend in Hcont.
      destruct (py_iter reviews) as [items |] eqn:Hi; [| discriminate].
      destruct (py_len reviews) as [len |] eqn:Hl; [| discriminate].
      destruct (Z.ltb_spec len 100); [discriminate |].
      now exists payload, reviews, items, len.
    + rewrite IH in Hrun. specialize (Hrun j ltac:(lia)).
      rewrite Hcalls in Hrun.
      replace (calls w + S j)%nat with (S (calls w) + j)%nat by lia.
      replace (page + Z.of_nat (S j)) with (page + 1 + Z.of_nat j) by lia.
      exact Hrun.
  - intros Hall.
    destruct Hhere as (acc' & -> & Hcalls).
    { specialize (Hall 0%nat ltac:(lia)).
      now rewrite Nat.add_0_r, Z.add_0_r in Hall. }
    apply IH. intros j Hj. rewrite Hcalls. next_page w page j.
    apply Hall. lia.
Qed.

(** C10, as amended.  With a positive maximum page count
    [get_all_reviews] comes to an end on every stream.  With no maximum
    page count and a delay that [time.sleep] takes, on a stream each of
    whose pages is an API error or a payload with a review list (a
    [dict] whose ['reviews'] entry is a list or is missing), it comes to
    an end if and only if some page is an API error, an empty review
    list or a list of fewer than 100 reviews. *)
Theorem get_all_reviews_termination (w : World) :
  (forall m, 0 < m -> terminates transport config buid (Some m) w) /\
  (valid_delay (rate_limit_delay config) ->
   (forall k, (1 <= k)%nat -> page_well_formed transport config buid w k) ->
   (terminates transport config buid None w <->
    exists k, (1 <= k)%nat /\ page_stops transport config buid w k)).
Proof.
  split.
  - intros m Hm. exists (S (Z.to_nat m)). apply loop_bounded; lia.
  - intros _ Hwf. split.
    + intros (fuel & Hend). apply loop_ends_at_stop in Hend.
      * destruct Hend as (j & _ & Hstop). exists (S j). split; [lia |].
        unfold page_stops. cbn [Nat.pred].
        replace (Z.of_nat (S j)) with (1 + Z.of_nat j) by lia. exact Hstop.
      * intros j. specialize (Hwf (S j) ltac:(lia)).
        unfold page_well_formed in Hwf. cbn [Nat.pred] in Hwf.
        replace (1 + Z.of_nat j) with (Z.of_nat (S j)) by lia. exact Hwf.
    + intros (k & Hk & Hstop). destruct k as [| j]; [lia |].
      exists (S j). apply (stop_ends_loop (S j) j); [lia |].
      unfold page_stops in Hstop. cbn [Nat.pred] in Hstop.
      replace (1 + Z.of_nat j) with (Z.of_nat (S j)) by lia. exact Hstop.
Qed.

End Termination.

Lemma reviews_of_reviews_payload (reviews : list Json) :
  reviews_of_payload (JObj [("reviews", JArr reviews)]) = Some reviews.
Proof. reflexivity. Qed.

Lemma get_all_reviews_termination_witness :
  (forall k, (1 <= k)%nat ->
     page_well_formed rate_limited_after_one demo_config
                      "46d6a890000064000500e0c3" init_world k) /\
  (terminates rate_limited_after_one demo_config "46d6a890000064000500e0c3"
              None init_world <->
   exists k, (1 <= k)%nat /\
     page_stops rate_limited_after_one demo_config
                "46d6a890000064000500e0c3" init_world k).
Proof.
  assert (Hwf : forall k, (1 <= k)%nat ->
            page_well_formed rate_limited_after_one demo_config
                             "46d6a890000064000500e0c3" init_world k).
  { intros [| [| k]] Hk; [lia | right | left].
    - exists (sample_reviews 1 100). eexists; split; reflexivity.
    - eexists. reflexivity. }
  split; [exact Hwf |].
  apply (proj2 (get_all_reviews_termination rate_limited_after_one demo_config
                  "46d6a890000064000500e0c3" init_world)).
  - exact demo_delay_valid.
  - exact Hwf.
Defined.

(** C10, as worded, fails: when the body of page 1 decodes to a list,
    [response.get] raises [AttributeError], which ends the run, although
    no page is an API error, an empty review list or a short one. *)
Lemma termination_needs_review_pages : ~ termination_on_any_stream.
Proof.
  intros H.
  destruct (H list_then_full_pages demo_config "46d6a890000064000500e0c3"
              init_world demo_delay_valid) as [_ [Hstop _]].
  destruct Hstop as (k & Hk & Hstops).
  { exists 1%nat. discriminate. }
  assert (Hfull : forall page,
            succeeds_at list_then_full_pages demo_config
                        "46d6a890000064000500e0c3" 0 page [] -> False).
  { intros page (payload & Ha & Hr). injection Ha as <-. discriminate Hr. }
  unfold page_stops in Hstops. destruct k as [| [| k]]; [lia | |];
    cbn [calls init_world Nat.add Nat.pred] in Hstops.
  - destruct Hstops as [(e & He) | [Hs | (reviews & (payload & Ha & Hr) & _)]].
    + discriminate He.
    + now apply Hfull in Hs.
    + injection Ha as <-. discriminate Hr.
  - destruct Hstops as [(e & He) | [(payload & Ha & Hr)
                                   | (reviews & (payload & Ha & Hr) & Hlen)]].
    + discriminate He.
    + injection Ha as <-. rewrite reviews_of_reviews_payload in Hr.
      discriminate Hr.
    + injection Ha as <-. rewrite reviews_of_reviews_payload in Hr.
      injection Hr as <-. revert Hlen. apply Nat.lt_irrefl.
Qed.

(** On a stream of full pages and with no maximum page count, the loop is
    still running after any number of passes. *)
Example endless_pages_never_end (buid : string) :
  ~ terminates endless_pages demo_config buid None init_world.
Proof.
  intros (fuel & Hend).
  assert (Hanswer : forall c page,
            answer_at endless_pages demo_config buid c page =
            Return (JObj [("reviews", JArr (sample_reviews 1 100))]))
    by reflexivity.
  assert (Hfull : forall c page reviews,
            succeeds_at endless_pages demo_config buid c page reviews ->
            List.length reviews = 100%nat).
  { intros c page reviews (payload & Ha & Hr).
    rewrite Hanswer in Ha. injection Ha as <-.
    rewrite reviews_of_reviews_payload in Hr. injection Hr as <-.
    reflexivity. }
  apply loop_ends_at_stop in Hend.
  - destruct Hend as (j & _ & [(e & He) | [Hs | (reviews & Hs & Hlen)]]).
    + rewrite Hanswer in He. discriminate He.
    + apply Hfull in Hs. discriminate Hs.
    + apply Hfull in Hs. lia.
  - intros j. right. eexists. eexists. split; [apply Hanswer | reflexivity].
Qed.

(** ** The stated properties of the request executor *)

Lemma error_kind_status_message (rest : string) (c : option PyException) :
  error_kind (mkApiError ("API request failed with status " ++ rest) c)
  = Some RequestError_kind.
Proof. destruct rest; reflexivity. Qed.

Lemma error_kind_request_failed (rest : string) (c : option PyException) :
  error_kind (mkApiError ("Request failed: " ++ rest) c)
  = Some RequestError_kind.
Proof. destruct rest; reflexivity. Qed.

(** The decimal digits of a number hold no colon. *)
Lemma split_colon_uint (d : Decimal.uint) (rest : string) :
  split_colon (NilEmpty.string_of_uint d ++ String ":" rest)
  = Some (NilEmpty.string_of_uint d, rest).
Proof. induction d; cbn; now rewrite ?IHd. Qed.

Lemma split_colon_str_int (n : Z) (rest : string) :
  split_colon (str_int n ++ String ":" rest) = Some (str_int n, rest).
Proof.
  unfold str_int, NilZero.string_of_int, NilZero.string_of_uint.
  destruct (Z.to_int n) as [d | d]; destruct d;
    try reflexivity;
    cbn; now rewrite split_colon_uint.
Qed.

Lemma int_of_str_int (n : Z) :
  NilZero.int_of_string (str_int n) = Some (Z.to_int n).
Proof.
  unfold str_int. apply NilZero.isi; destruct n; cbn; try discriminate.
  all: intros [= H]; now apply Unsigned.to_uint_nonnil in H.
Qed.

(** A request error built from a status code gives back the status code
    and the body text. *)
Lemma request_error_details_status (status : Z) (body : string)
    (c : option PyException) :
  request_error_details
    (mkApiError ("API request failed with status " ++ str_int status ++ ": "
                   ++ body) c)
  = Some (status, body).
Proof.
  unfold request_error_details. cbn [message drop_prefix append Ascii.eqb
    Bool.eqb].
  change (": " ++ body) with (String ":" (String " " body)).
  rewrite split_colon_str_int, int_of_str_int.
  now rewrite DecimalZ.of_to.
Qed.

(** C3. Whatever the request, with a delay that [time.sleep] takes, a
    401 response yields the authentication error, 404 the not-found
    error, 429 the rate-limit error, any other status but 200 a request
    error whose message holds the status code and the raw body text,
    both of which can be read back from it, and a 200 response whose
    body decodes yields the decoded body. *)
Theorem make_request_status_mapping
    (transport : Transport) (config : TrustpilotConfig)
    (endpoint : string) (params : Params) (w : World) (response : Response) :
  valid_delay (rate_limit_delay config) ->
  transport (calls w)
            (mkRequest (url_of config endpoint) params (timeout config))
    = GetResponse response ->
  let result := fst (_make_request transport config endpoint params w) in
  let status := status_code response in
  (status = 401 ->
     result = Raise (ApiError (mkApiError
                "Invalid API key or unauthorized access" None)) /\
     raises_kind result AuthenticationError_kind) /\
  (status = 404 ->
     result = Raise (ApiError (mkApiError "Resource not found" None)) /\
     raises_kind result NotFoundError_kind) /\
  (status = 429 ->
     result = Raise (ApiError (mkApiError
                "Rate limit exceeded. Please wait before making more requests."
                None)) /\
     raises_kind result RateLimitError_kind) /\
  (status <> 200 -> status <> 401 -> status <> 404 -> status <> 429 ->
     result = Raise (ApiError (mkApiError
                ("API request failed with status " ++ str_int status ++ ": "
                   ++ text response) None)) /\
     raises_kind result RequestError_kind /\
     request_error_details (mkApiError
                ("API request failed with status " ++ str_int status ++ ": "
                   ++ text response) None) = Some (status, text response)) /\
  (status = 200 -> forall body, json response = JsonValue body ->
     result = Return body).
Proof.
  intros Hvalid Hget result status. subst result status.
  rewrite _make_request_run. cbv zeta. rewrite Hget.
  rewrite (_make_request_valid _ _ Hvalid). cbn [fst]. unfold on_status.
  split; [| split; [| split; [| split]]].
  - intros H. rewrite H. split; [| eexists; split]; reflexivity.
  - intros H. rewrite H. split; [| eexists; split]; reflexivity.
  - intros H. rewrite H. split; [| eexists; split]; reflexivity.
  - intros H200 H401 H404 H429.
    destruct (Z.eqb_spec (status_code response) 200),
      (Z.eqb_spec (status_code response) 401),
      (Z.eqb_spec (status_code response) 404),
      (Z.eqb_spec (status_code response) 429); try contradiction.
    split; [reflexivity | split].
    + eexists; split; [reflexivity |]. apply error_kind_status_message.
    + apply request_error_details_status.
  - intros H body Hbody. rewrite H, Hbody. reflexivity.
Qed.

Lemma make_request_status_mapping_witness :
  let run o := fst (_make_request (answers_with o) demo_config
                      "business-units/find" None init_world) in
  run (status_response 401 "Unauthorized") =
    Raise (ApiError (mkApiError "Invalid API key or unauthorized access" None))
  /\ run (status_response 404 "Not Found") =
    Raise (ApiError (mkApiError "Resource not found" None))
  /\ run (status_response 429 "Too Many Requests") =
    Raise (ApiError (mkApiError
      "Rate limit exceeded. Please wait before making more requests." None))
  /\ run (status_response 500 "Internal Server Error") =
    Raise (ApiError (mkApiError
      "API request failed with status 500: Internal Server Error" None))
  /\ run (GetResponse found_business) =
    Return (JObj [("businessUnits",
                   JArr [JObj [("id", JStr "46d6a890000064000500e0c3");
                               ("displayName", JStr "Example")]])]).
Proof.
  intros run; subst run; cbv beta.
  split; [| split; [| split; [| split]]].
  - apply (make_request_status_mapping
             (answers_with (status_response 401 "Unauthorized")) demo_config
             "business-units/find" None init_world _
             demo_delay_valid eq_refl).
    reflexivity.
  - apply (make_request_status_mapping
             (answers_with (status_response 404 "Not Found")) demo_config
             "business-units/find" None init_world _
             demo_delay_valid eq_refl).
    reflexivity.
  - apply (make_request_status_mapping
             (answers_with (status_response 429 "Too Many Requests"))
             demo_config "business-units/find" None init_world _
             demo_delay_valid eq_refl).
    reflexivity.
  - apply (make_request_status_mapping
             (answers_with (status_response 500 "Internal Server Error"))
             demo_config "business-units/find" None init_world _
             demo_delay_valid eq_refl);
      discriminate.
  - apply (make_request_status_mapping
             (answers_with (GetResponse found_business))
             demo_config "business-units/find" None init_world _
             demo_delay_valid eq_refl);
      reflexivity.
Defined.

(** C4. With a delay that [time.sleep] takes, every failure that the
    table of the specification names comes out of [_make_request] as a
    [TrustpilotAPIError], the one error class, and its kind can be read
    off the error; every [TrustpilotAPIError] that [_make_request] raises
    has one of the six kinds; and errors of different kinds differ. *)
Theorem api_errors_one_family
    (transport : Transport) (config : TrustpilotConfig)
    (endpoint : string) (params : Params) (w : World) :
  let answer := transport (calls w)
                  (mkRequest (url_of config endpoint) params (timeout config))
  in
  let result := fst (_make_request transport config endpoint params w) in
  (valid_delay (rate_limit_delay config) ->
   forall k, spec_failure_kind answer = Some k -> raises_kind result k) /\
  (forall e, result = Raise (ApiError e) -> exists k, error_kind e = Some k) /\
  (forall e1 e2 k1 k2,
     error_kind e1 = Some k1 -> error_kind e2 = Some k2 -> k1 <> k2 ->
     message e1 <> message e2).
Proof.
  intros answer result. subst result.
  rewrite _make_request_run. cbv zeta. fold answer. cbn [fst].
  split; [| split].
  - intros Hvalid k. rewrite (_make_request_valid _ _ Hvalid).
    destruct answer as [response | exc];
      cbn [spec_failure_kind]; unfold on_status.
    + destruct (status_code response =? 200); [discriminate |].
      destruct (status_code response =? 401);
        [intros [= <-]; eexists; split; reflexivity |].
      destruct (status_code response =? 404);
        [intros [= <-]; eexists; split; reflexivity |].
      destruct (status_code response =? 429);
        [intros [= <-]; eexists; split; reflexivity |].
      intros [= <-]. eexists; split; [reflexivity |].
      apply error_kind_status_message.
    + cbn [on_exception].
      destruct (isinstance_Timeout exc);
        [intros [= <-]; eexists; split; reflexivity |].
      destruct (isinstance_ConnectionError exc);
        [intros [= <-]; eexists; split; reflexivity |].
      destruct (isinstance_RequestException exc); [| discriminate].
      intros [= <-]. eexists; split; [reflexivity |].
      apply error_kind_request_failed.
  - intros e. assert (Hexc : forall exc : PyException,
      @on_exception Json (Raise (LibraryError exc)) = Raise (ApiError e) ->
      exists k, error_kind e = Some k).
    { intros exc. cbn [on_exception].
      destruct (isinstance_Timeout exc);
        [intros [= <-]; eexists; reflexivity |].
      destruct (isinstance_ConnectionError exc);
        [intros [= <-]; eexists; reflexivity |].
      destruct (isinstance_RequestException exc); [| discriminate].
      intros [= <-]. eexists. apply error_kind_request_failed. }
    destruct answer as [response | exc];
      cbn [make_request_result]; [| apply Hexc].
    destruct (sleep_error (rate_limit_delay config)) as [raised |] eqn:Hs.
    { destruct (sleep_error_kind _ _ Hs) as [-> | ->]; discriminate. }
    unfold on_status.
    destruct (status_code response =? 200).
    { destruct (json response) as [j | exc]; [discriminate | apply Hexc]. }
    destruct (status_code response =? 401);
      [intros [= <-]; eexists; reflexivity |].
    destruct (status_code response =? 404);
      [intros [= <-]; eexists; reflexivity |].
    destruct (status_code response =? 429);
      [intros [= <-]; eexists; reflexivity |].
    intros [= <-]. eexists. apply error_kind_status_message.
  - intros e1 e2 k1 k2 H1 H2 Hk Hm. apply Hk.
    unfold error_kind in H1, H2. rewrite Hm in H1. congruence.
Qed.

Lemma api_errors_one_family_witness :
  raises_kind
    (fst (_make_request always_times_out demo_config "business-units/find"
            None init_world))
    TimeoutError_kind
  /\ (exists k,
        error_kind (mkApiError "Request timed out"
                      (Some (mkExc ReadTimeout "Read timed out.")))
        = Some k)
  /\ "Request timed out" <> "Resource not found".
Proof.
  pose proof (api_errors_one_family always_times_out demo_config
                "business-units/find" None init_world) as (Hk & He & Hd).
  split; [| split].
  - apply Hk; [exact demo_delay_valid | reflexivity].
  - apply He. reflexivity.
  - apply (Hd (mkApiError "Request timed out" None)
              (mkApiError "Resource not found" None)
              TimeoutError_kind NotFoundError_kind);
      [reflexivity | reflexivity | discriminate].
Defined.

(** C5, as worded, fails: when the GET call itself raises, here on a
    timeout, [_make_request] raises in turn without any pause. *)
Lemma no_pause_after_transport_failure : ~ pause_after_every_call.
Proof.
  intros H.
  specialize (H always_times_out demo_config "business-units/find" None
                init_world demo_delay_valid).
  discriminate H.
Qed.

(** C5, as amended.  When the GET call returns a response, whatever its
    status code, and the configured delay is one that [time.sleep]
    takes, [_make_request] pauses once for that delay, right after the
    call and before it returns or raises; when the GET call raises,
    [_make_request] does not pause. *)
Theorem make_request_pause
    (transport : Transport) (config : TrustpilotConfig)
    (endpoint : string) (params : Params) (w : World) :
  let request := mkRequest (url_of config endpoint) params (timeout config) in
  let w' := snd (_make_request transport config endpoint params w) in
  (forall response,
     transport (calls w) request = GetResponse response ->
     valid_delay (rate_limit_delay config) ->
     trace w' =
       (trace w ++ [EvGet request; EvSleep (rate_limit_delay config)])%list
     /\ sleeps_of (trace w') =
        (sleeps_of (trace w) ++ [rate_limit_delay config])%list)
  /\ (forall exc,
        transport (calls w) request = GetRaises exc ->
        trace w' = (trace w ++ [EvGet request])%list
        /\ sleeps_of (trace w') = sleeps_of (trace w)).
Proof.
  intros request w'. subst w'. rewrite _make_request_run. cbv zeta.
  fold request. cbn [snd trace]. rewrite sleeps_of_app.
  unfold events_of_call. split.
  - intros response -> Hvalid%sleep_error_valid. rewrite Hvalid.
    split; reflexivity.
  - intros exc ->. cbn. rewrite app_nil_r. split; reflexivity.
Qed.

Lemma make_request_pause_witness :
  trace (snd (_make_request
                (answers_with (status_response 500 "Internal Server Error"))
                demo_config "business-units/find" None init_world)) =
    [EvGet (mkRequest "https://api.trustpilot.com/v1/business-units/find"
                      None 30);
     EvSleep (1 # 10)]
  /\ trace (snd (_make_request always_times_out demo_config
                   "business-units/find" None init_world)) =
    [EvGet (mkRequest "https://api.trustpilot.com/v1/business-units/find"
                      None 30)].
Proof.
  split.
  - apply (make_request_pause
             (answers_with (status_response 500 "Internal Server Error"))
             demo_config "business-units/find" None init_world)
      with (response := {| status_code := 500;
                           text := "Internal Server Error";
                           json := JsonRaises (mkExc OtherRequestException
                                                     "Expecting value") |});
      [reflexivity | exact demo_delay_valid].
  - apply (make_request_pause always_times_out demo_config
             "business-units/find" None init_world)
      with (exc := mkExc ReadTimeout "Read timed out.").
    reflexivity.
Defined.

(** C6. [get_reviews] issues one GET call whose [perPage] parameter is
    [min(per_page, 100)]: 100 for a page size above 100, the page size
    itself otherwise. *)
Theorem get_reviews_per_page
    (transport : Transport) (config : TrustpilotConfig) (buid : string)
    (per_page page : Z) (w : World) :
  let w' := snd (get_reviews transport config buid per_page page w) in
  requests_of (trace w') =
    (requests_of (trace w) ++
     [mkRequest (base_url config ++ "/business-units/" ++ buid ++ "/reviews")
                (Some [("perPage", PInt (Z.min per_page 100));
                       ("page", PInt page)])
                (timeout config)])%list
  /\ (100 < per_page -> Z.min per_page 100 = 100)
  /\ (per_page <= 100 -> Z.min per_page 100 = per_page).
Proof.
  intros w'. subst w'. unfold get_reviews. rewrite _make_request_run.
  cbv zeta. cbn [snd trace].
  rewrite requests_of_app, requests_of_call.
  split; [reflexivity | split; lia].
Qed.

Lemma get_reviews_per_page_witness :
  requests_of (trace (snd (get_reviews three_pages demo_config
                             "46d6a890000064000500e0c3" 250 1 init_world))) =
    [mkRequest
       "https://api.trustpilot.com/v1/business-units/46d6a890000064000500e0c3/reviews"
       (Some [("perPage", PInt 100); ("page", PInt 1)]) 30]
  /\ requests_of (trace (snd (get_reviews three_pages demo_config
                             "46d6a890000064000500e0c3" 20 1 init_world))) =
    [mkRequest
       "https://api.trustpilot.com/v1/business-units/46d6a890000064000500e0c3/reviews"
       (Some [("perPage", PInt 20); ("page", PInt 1)]) 30]
  /\ Z.min 250 100 = 100 /\ Z.min 20 100 = 20.
Proof.
  pose proof (get_reviews_per_page three_pages demo_config
                "46d6a890000064000500e0c3" 250 1 init_world) as (H1 & H2 & _).
  pose proof (get_reviews_per_page three_pages demo_config
                "46d6a890000064000500e0c3" 20 1 init_world) as (H3 & _ & H4).
  split; [exact H1 | split; [exact H3 | split]].
  - apply H2. lia.
  - apply H4. lia.
Defined.

(** C8. [find_business_unit] issues exactly one GET call, to the search
    endpoint and with the single parameter [name] set to the domain, and
    on a 200 response, with a delay that [time.sleep] takes, returns the
    decoded body as it is. *)
Theorem find_business_unit_request
    (transport : Transport) (config : TrustpilotConfig) (domain : string)
    (w : World) :
  let request := mkRequest (base_url config ++ "/business-units/find")
                           (Some [("name", PStr domain)]) (timeout config) in
  let run := find_business_unit transport config domain w in
  requests_of (trace (snd run)) = (requests_of (trace w) ++ [request])%list
  /\ calls (snd run) = S (calls w)
  /\ (forall response body,
        valid_delay (rate_limit_delay config) ->
        transport (calls w) request = GetResponse response ->
        status_code response = 200 ->
        json response = JsonValue body ->
        fst run = Return body).
Proof.
  intros request run. subst run. unfold find_business_unit.
  rewrite _make_request_run. cbv zeta. cbn [fst snd trace calls].
  change (mkRequest (url_of config "business-units/find")
            (Some [("name", PStr domain)]) (timeout config)) with request.
  rewrite requests_of_app, requests_of_call.
  split; [reflexivity | split; [reflexivity |]].
  intros response body Hvalid -> Hstatus Hbody.
  rewrite (_make_request_valid _ _ Hvalid). unfold on_status.
  rewrite Hstatus, Hbody. reflexivity.
Qed.

Lemma find_business_unit_request_witness :
  fst (find_business_unit (answers_with (GetResponse found_business))
         demo_config "example.com" init_world) =
    Return (JObj [("businessUnits",
                   JArr [JObj [("id", JStr "46d6a890000064000500e0c3");
                               ("displayName", JStr "Example")]])]).
Proof.
  apply (find_business_unit_request
           (answers_with (GetResponse found_business)) demo_config
           "example.com" init_world) with (response := found_business);
    [exact demo_delay_valid | reflexivity ..].
Defined.

(** * Further properties of the client *)

(** ** The request executor *)

(** X1. When [session.get] raises, a [Timeout] (a [ConnectTimeout]
    included, although it is a [ConnectionError] too) becomes "Request
    timed out", any other [ConnectionError] "Connection error occurred",
    any other exception of the library "Request failed: " followed by its
    text, each with the exception as its cause; an exception that is not
    the library's leaves [_make_request] as it is. *)
Theorem make_request_transport_failure
    (transport : Transport) (config : TrustpilotConfig)
    (endpoint : string) (params : Params) (w : World) (exc : PyException) :
  transport (calls w)
            (mkRequest (url_of config endpoint) params (timeout config))
    = GetRaises exc ->
  let result := fst (_make_request transport config endpoint params w) in
  match exc_class exc with
  | ReadTimeout | ConnectTimeout =>
      result = Raise (ApiError (mkApiError "Request timed out" (Some exc)))
  | ConnectionError =>
      result = Raise (ApiError (mkApiError "Connection error occurred"
                                           (Some exc)))
  | OtherRequestException =>
      result = Raise (ApiError (mkApiError ("Request failed: " ++ exc_str exc)
                                           (Some exc)))
  | NotRequestException =>
      result = Raise (LibraryError exc)
  end.
Proof.
  intros Hget result. subst result.
  rewrite _make_request_run. cbv zeta. rewrite Hget.
  cbn [fst make_request_result on_exception].
  unfold isinstance_Timeout, isinstance_ConnectionError,
    isinstance_RequestException.
  destruct (exc_class exc); reflexivity.
Qed.

Lemma make_request_transport_failure_witness :
  fst (_make_request
         (answers_with (GetRaises (mkExc ConnectTimeout "connect timed out")))
         demo_config "business-units/find" None init_world) =
    Raise (ApiError (mkApiError "Request timed out"
             (Some (mkExc ConnectTimeout "connect timed out")))).
Proof.
  apply (make_request_transport_failure
           (answers_with (GetRaises (mkExc ConnectTimeout "connect timed out")))
           demo_config "business-units/find" None init_world
           (mkExc ConnectTimeout "connect timed out")).
  reflexivity.
Defined.

(** X2. With a delay that [time.sleep] takes, a 200 response whose body
    fails to decode goes through the same [except] clauses as a failure
    of the GET call: [_make_request] makes of the exception of
    [response.json()] what it would make of that exception raised by
    [session.get].  The pause has been taken by then. *)
Theorem make_request_undecodable_body
    (transport : Transport) (config : TrustpilotConfig)
    (endpoint : string) (params : Params) (w : World)
    (response : Response) (exc : PyException) :
  let request := mkRequest (url_of config endpoint) params (timeout config) in
  valid_delay (rate_limit_delay config) ->
  transport (calls w) request = GetResponse response ->
  status_code response = 200 ->
  json response = JsonRaises exc ->
  let run := _make_request transport config endpoint params w in
  fst run =
    fst (_make_request (answers_with (GetRaises exc)) config endpoint params w)
  /\ (forall body, fst run <> Return body)
  /\ trace (snd run) =
     (trace w ++ [EvGet request; EvSleep (rate_limit_delay config)])%list.
Proof.
  intros request Hvalid Hget Hstatus Hjson run. subst run.
  rewrite !_make_request_run. cbv zeta. fold request. rewrite Hget.
  rewrite !(_make_request_valid _ _ Hvalid). unfold events_of_call.
  apply sleep_error_valid in Hvalid. rewrite Hvalid.
  cbn [fst snd trace answers_with].
  unfold on_status. rewrite Hstatus, Hjson. cbn [Z.eqb Pos.eqb].
  split; [reflexivity | split; [| reflexivity]].
  intros body. cbn [on_exception].
  destruct (isinstance_Timeout exc); [discriminate |].
  destruct (isinstance_ConnectionError exc); [discriminate |].
  destruct (isinstance_RequestException exc); discriminate.
Qed.

Lemma make_request_undecodable_body_witness :
  fst (_make_request
         (answers_with (status_response 200 "<html>"))
         demo_config "business-units/find" None init_world) =
    Raise (ApiError (mkApiError "Request failed: Expecting value"
             (Some (mkExc OtherRequestException "Expecting value")))).
Proof.
  apply (make_request_undecodable_body
           (answers_with (status_response 200 "<html>"))
           demo_config "business-units/find" None init_world
           {| status_code := 200; text := "<html>";
              json := JsonRaises (mkExc OtherRequestException
                                        "Expecting value") |}
           (mkExc OtherRequestException "Expecting value"));
    [exact demo_delay_valid | reflexivity ..].
Defined.

Lemma lstrip_slash_slashes (n : nat) (s : string) :
  lstrip_slash (slashes n ++ s) = lstrip_slash s.
Proof. induction n as [| n IH]; [reflexivity | exact IH]. Qed.

Lemma lstrip_slash_decompose (s : string) :
  exists n, s = slashes n ++ lstrip_slash s.
Proof.
  induction s as [| c s IH]; [now exists 0%nat |].
  cbn [lstrip_slash]. destruct (Ascii.eqb_spec c "/"%char) as [-> | Hc].
  - destruct IH as (n & Hn). exists (S n). cbn. now rewrite <- Hn.
  - now exists 0%nat.
Qed.

Lemma lstrip_slash_no_slash (s rest : string) :
  lstrip_slash s <> String "/" rest.
Proof.
  induction s as [| c s IH]; [discriminate |].
  cbn [lstrip_slash]. destruct (Ascii.eqb_spec c "/"%char) as [-> | Hc].
  - exact IH.
  - intros [= H _]. now apply Hc.
Qed.

(** X3. The URL of a request is the base address, one slash and the
    endpoint without its leading slashes: the endpoint is a run of
    slashes followed by a path that does not start with a slash, only
    that path enters the URL, and so any number of leading slashes gives
    the same URL. *)
Theorem url_of_leading_slashes (config : TrustpilotConfig) (endpoint : string) :
  (exists n path,
     endpoint = slashes n ++ path /\
     (forall rest, path <> String "/" rest) /\
     url_of config endpoint = base_url config ++ "/" ++ path)
  /\ (forall n, url_of config (slashes n ++ endpoint) = url_of config endpoint).
Proof.
  split.
  - destruct (lstrip_slash_decompose endpoint) as (n & Hn).
    exists n, (lstrip_slash endpoint).
    split; [exact Hn | split; [apply lstrip_slash_no_slash | reflexivity]].
  - intros n. unfold url_of. now rewrite lstrip_slash_slashes.
Qed.

(** ** The pagination loop on any stream *)

Section LoopInvariants.

Variable transport : Transport.
Variable config : TrustpilotConfig.
Variable buid : string.

Local Abbreviation answer_at := (answer_at transport config buid).
Local Abbreviation reviews_request := (reviews_request config buid).
Local Abbreviation loop := (get_all_reviews_loop transport config).
Local Abbreviation body := (loop_body transport config buid).

(** What a pass does to the world: nothing when the limit is reached,
    one GET call for the current page otherwise. *)
Lemma body_world (max_pages : option Z) (acc : list Json) (page : Z)
    (w : World) :
  let (step, w') := body max_pages acc page w in
  (page_limit_reached max_pages page = true /\ step = Break acc /\ w' = w) \/
  (page_limit_reached max_pages page = false /\
   calls w' = S (calls w) /\
   requests_of (trace w') =
     (requests_of (trace w) ++ [reviews_request page])%list /\
   match step with
   | Continue _ page' => page' = page + 1
   | _ => True
   end).
Proof.
  unfold loop_body.
  destruct (page_limit_reached max_pages page); [left; now repeat split |].
  unfold bind. rewrite get_reviews_100_run. cbv zeta.
  destruct (make_request_result _) as [payload | [e | e | | | |]];
    cbn [print emit ret bind calls trace]; right;
    rewrite ?requests_of_app, ?requests_of_call; cbn [requests_of];
    rewrite ?app_nil_r; repeat split.
  destruct (on_page acc page payload) as [acc' | acc' page' | r] eqn:E;
    [exact I | now apply on_page_Continue in E | exact I].
Qed.

Lemma loop_requests (fuel : nat) :
  forall (max_pages : option Z) (acc : list Json) (page : Z) (w : World),
  let w' := snd (loop fuel buid max_pages acc page w) in
  exists n,
    (n <= fuel)%nat /\
    calls w' = (calls w + n)%nat /\
    requests_of (trace w') =
      (requests_of (trace w)
         ++ map (fun j => reviews_request (page + Z.of_nat j)) (seq 0 n))%list /\
    (forall m, max_pages = Some m -> m <> 0 ->
       Z.of_nat n <= Z.max 0 (m + 1 - page)).
Proof.
  induction fuel as [| fuel IH]; intros max_pages acc page w; cbv zeta.
  { exists 0%nat. cbn. rewrite app_nil_r. repeat split; lia. }
  rewrite loop_S. pose proof (body_world max_pages acc page w) as Hbody.
  destruct (body max_pages acc page w) as [step w1].
  destruct Hbody as [(_ & -> & ->) | (Hlimit & Hcalls & Hreq & Hstep)].
  { exists 0%nat. cbn. rewrite app_nil_r. repeat split; lia. }
  assert (Hbound : forall m, max_pages = Some m -> m <> 0 -> page <= m).
  { intros m -> Hm. cbn in Hlimit.
    destruct (Z.eqb_spec m 0); [contradiction |].
    rewrite Z.gtb_ltb in Hlimit. apply Z.ltb_ge in Hlimit. exact Hlimit. }
  destruct step as [acc' | acc' page' | r].
  1, 3: exists 1%nat; cbn [snd seq map]; rewrite Z.add_0_r;
        repeat split; try lia; try assumption;
        intros m Hm Hm0; specialize (Hbound m Hm Hm0); lia.
  subst page'.
  destruct (IH max_pages acc' (page + 1) w1) as (n & Hn & Hc & Hr & Hb).
  exists (S n). repeat split.
  - lia.
  - lia.
  - rewrite Hr, Hreq, <- app_assoc. cbn [seq map app]. rewrite Z.add_0_r.
    do 2 f_equal. rewrite <- seq_shift, map_map. apply map_ext.
    intros j. f_equal. lia.
  - intros m Hm Hm0. specialize (Hb m Hm Hm0). specialize (Hbound m Hm Hm0).
    lia.
Qed.

(** No pass hands on an API error: what leaves the loop is an exception
    of another kind. *)
Lemma body_Propagate (max_pages : option Z) (acc : list Json) (page : Z)
    (w w' : World) (r : Raised) :
  body max_pages acc page w = (Propagate r, w') ->
  forall e, r <> ApiError e.
Proof.
  unfold loop_body.
  destruct (page_limit_reached max_pages page); [discriminate |].
  unfold bind. destruct (get_reviews _ _ _ _ _ _) as [[payload | r0] w1].
  - unfold ret, on_page.
    destruct (py_get payload "reviews" (JArr [])) as [reviews |] eqn:Hg.
    + destruct (negb (truthy reviews)); [discriminate |].
      unfold py_extend.
      destruct reviews; cbn [py_iter py_len];
        try (intros [= <- _]; discriminate);
        match goal with
        | |- context [if ?b then _ else _] =>
            destruct b; discriminate
        end.
    + destruct payload; cbn in Hg; try discriminate;
        try (injection Hg as <-; intros [= <- _]; discriminate).
      destruct (dict_lookup "reviews" fields); discriminate.
  - destruct r0 as [e0 | e0 | | | |]; cbn; try discriminate;
      intros [= <- _]; discriminate.
Qed.

(** Every pass adds to the list it was given. *)
Lemma body_extends (max_pages : option Z) (acc : list Json) (page : Z)
    (w : World) :
  match fst (body max_pages acc page w) with
  | Break acc' | Continue acc' _ => exists items, acc' = (acc ++ items)%list
  | Propagate _ => True
  end.
Proof.
  assert (Hsame : exists items : list Json, acc = (acc ++ items)%list)
    by (exists []; now rewrite app_nil_r).
  unfold loop_body.
  destruct (page_limit_reached max_pages page); [exact Hsame |].
  unfold bind. destruct (get_reviews _ _ _ _ _ _) as [[payload | r0] w1].
  - cbn [ret fst]. unfold on_page.
    destruct (py_get payload "reviews" (JArr [])) as [reviews |]; [| exact I].
    destruct (negb (truthy reviews)); [exact Hsame |].
    unfold py_extend. destruct (py_iter reviews) as [items |]; [| exact I].
    destruct (py_len reviews) as [n |]; [| exact I].
    destruct (n <? 100); now exists items.
  - destruct r0 as [e0 | e0 | | | |]; cbn; try exact I. exact Hsame.
Qed.

Lemma loop_extends (fuel : nat) :
  forall (max_pages : option Z) (acc : list Json) (page : Z) (w : World)
         (result : list Json),
  fst (loop fuel buid max_pages acc page w) = Some (Return result) ->
  exists items, result = (acc ++ items)%list.
Proof.
  induction fuel as [| fuel IH]; intros max_pages acc page w result;
    [discriminate |].
  rewrite loop_S. pose proof (body_extends max_pages acc page w) as Hext.
  destruct (body max_pages acc page w) as [[acc' | acc' page' | r] w1];
    cbn [fst] in *.
  - intros [= <-]. exact Hext.
  - intros Hrun. apply IH in Hrun. destruct Hrun as (items & ->).
    destruct Hext as (items0 & ->). exists (items0 ++ items)%list.
    now rewrite app_assoc.
  - discriminate.
Qed.

(** Below the limit, a pass does not depend on the limit. *)
Lemma body_below_limit (max_pages : option Z) (acc : list Json) (page : Z)
    (w : World) :
  page_limit_reached max_pages page = false ->
  body max_pages acc page w = body None acc page w.
Proof. unfold loop_body. now intros ->. Qed.

Lemma loop_limit_prefix (m : Z) (n1 : nat) :
  forall (n2 : nat) (acc : list Json) (page : Z) (w : World)
         (all part : list Json),
  fst (loop n1 buid None acc page w) = Some (Return all) ->
  fst (loop n2 buid (Some m) acc page w) = Some (Return part) ->
  exists rest, all = (part ++ rest)%list.
Proof.
  induction n1 as [| n1 IH]; intros n2 acc page w all part; [discriminate |].
  destruct n2 as [| n2]; [discriminate |].
  intros Hall. pose proof (loop_extends _ _ _ _ _ _ Hall) as Hext.
  revert Hall. rewrite !loop_S.
  destruct (page_limit_reached (Some m) page) eqn:Hlimit.
  - rewrite (body_limit _ _ _ (Some m)) by exact Hlimit.
    intros _ [= <-]. exact Hext.
  - rewrite (body_below_limit (Some m)) by exact Hlimit.
    destruct (body None acc page w) as [[acc' | acc' page' | r] w1];
      cbn [fst].
    + intros [= <-] [= <-]. exists []. now rewrite app_nil_r.
    + apply IH.
    + discriminate.
Qed.

End LoopInvariants.

(** C9. A maximum page count of 0 never stops the loop: the limit test is
    false for every page; the run is the run with no maximum page count,
    pass for pass; and the first pass issues the request for page 1
    rather than stopping before it. *)
Theorem get_all_reviews_max_pages_0
    (transport : Transport) (config : TrustpilotConfig) (buid : string)
    (fuel : nat) (w : World) :
  (forall page, page_limit_reached (Some 0) page = false)
  /\ get_all_reviews transport config fuel buid (Some 0) w =
     get_all_reviews transport config fuel buid None w
  /\ (exists rest,
        requests_of
          (trace (snd (get_all_reviews transport config (S fuel) buid
                         (Some 0) w))) =
        (requests_of (trace w) ++ reviews_request config buid 1 :: rest)%list).
Proof.
  split; [reflexivity | split].
  - unfold get_all_reviews. generalize (@nil Json) 1 w.
    induction fuel as [| n IH]; intros acc page w0; [reflexivity |].
    rewrite !loop_S.
    change (loop_body transport config buid (Some 0) acc page w0)
      with (loop_body transport config buid None acc page w0).
    destruct (loop_body transport config buid None acc page w0)
      as [[acc' | acc' page' | r] w']; auto.
  - unfold get_all_reviews. rewrite loop_S.
    pose proof (body_world transport config buid (Some 0) [] 1 w) as Hbody.
    destruct (loop_body transport config buid (Some 0) [] 1 w)
      as [step w1].
    destruct Hbody as [(Hlimit & _) | (_ & _ & Hreq & _)];
      [discriminate Hlimit |].
    destruct step as [acc' | acc' page' | r];
      try (exists []; exact Hreq).
    destruct (loop_requests transport config buid fuel (Some 0) acc' page' w1)
      as (n & _ & _ & Hr & _).
    eexists. rewrite Hr, Hreq, <- app_assoc. reflexivity.
Qed.

(** X5. On any stream, with any maximum page count and after any number
    of passes, the GET calls that [get_all_reviews] has issued are the
    requests for the pages 1, 2, ..., [n] in this order, each with
    [perPage] 100, one call per pass at most: no page is skipped and none
    is asked for twice. *)
Theorem get_all_reviews_requests_in_order
    (transport : Transport) (config : TrustpilotConfig) (buid : string)
    (max_pages : option Z) (fuel : nat) (w : World) :
  let w' := snd (get_all_reviews transport config fuel buid max_pages w) in
  exists n,
    (n <= fuel)%nat /\
    calls w' = (calls w + n)%nat /\
    requests_of (trace w') =
      (requests_of (trace w) ++ page_requests config buid n)%list.
Proof.
  cbv zeta. unfold get_all_reviews.
  destruct (loop_requests transport config buid fuel max_pages [] 1 w)
    as (n & Hn & Hc & Hr & _).
  exists n. split; [exact Hn | split; [exact Hc |]].
  rewrite Hr. f_equal. unfold page_requests.
  rewrite <- seq_shift, map_map. apply map_ext. intros j. f_equal. lia.
Qed.

(** X6. With a maximum page count other than 0, [get_all_reviews] issues
    at most that many GET calls, on any stream; with a negative maximum
    page count it issues none. *)
Theorem get_all_reviews_request_bound
    (transport : Transport) (config : TrustpilotConfig) (buid : string)
    (m : Z) (fuel : nat) (w : World) :
  m <> 0 ->
  let w' := snd (get_all_reviews transport config fuel buid (Some m) w) in
  (List.length (requests_of (trace w')) <=
     List.length (requests_of (trace w)) + Z.to_nat m)%nat
  /\ (calls w' <= calls w + Z.to_nat m)%nat.
Proof.
  intros Hm. cbv zeta. unfold get_all_reviews.
  destruct (loop_requests transport config buid fuel (Some m) [] 1 w)
    as (n & _ & Hc & Hr & Hb).
  specialize (Hb m eq_refl Hm).
  rewrite Hr, Hc, length_app, length_map, length_seq. lia.
Qed.

Lemma get_all_reviews_request_bound_witness :
  let w' := snd (get_all_reviews endless_pages demo_config 10
                   "46d6a890000064000500e0c3" (Some 2) init_world) in
  (List.length (requests_of (trace w')) <= 0 + 2)%nat
  /\ (calls w' <= 0 + 2)%nat.
Proof.
  apply (get_all_reviews_request_bound endless_pages demo_config
           "46d6a890000064000500e0c3" 2 10 init_world).
  discriminate.
Defined.

(** X7. [get_all_reviews] never raises a [TrustpilotAPIError], on any
    stream and with any maximum page count: an API error of a page ends
    the loop with a list, and only exceptions of other kinds leave it. *)
Theorem get_all_reviews_no_api_error
    (transport : Transport) (config : TrustpilotConfig) (buid : string)
    (max_pages : option Z) (fuel : nat) (w : World)
    (e : TrustpilotAPIError) :
  fst (get_all_reviews transport config fuel buid max_pages w)
  <> Some (Raise (ApiError e)).
Proof.
  unfold get_all_reviews. generalize (@nil Json) 1 w.
  induction fuel as [| fuel IH]; intros acc page w0; [discriminate |].
  rewrite loop_S.
  destruct (loop_body transport config buid max_pages acc page w0)
    as [[acc' | acc' page' | r] w1] eqn:E.
  - discriminate.
  - apply IH.
  - intros [= ->]. now apply (body_Propagate _ _ _ _ _ _ _ _ _ E e).
Qed.

(** X8. Limiting the number of pages gives a prefix: when the run with
    no maximum page count returns a list and the run with a maximum page
    count, from the same world on the same stream, returns a list, the
    second list is the beginning of the first. *)
Theorem get_all_reviews_limit_gives_prefix
    (transport : Transport) (config : TrustpilotConfig) (buid : string)
    (m : Z) (fuel fuel' : nat) (w : World) (all part : list Json) :
  fst (get_all_reviews transport config fuel buid None w)
    = Some (Return all) ->
  fst (get_all_reviews transport config fuel' buid (Some m) w)
    = Some (Return part) ->
  exists rest, all = (part ++ rest)%list.
Proof. unfold get_all_reviews. apply loop_limit_prefix. Qed.

Lemma get_all_reviews_limit_gives_prefix_witness :
  exists rest,
    (sample_reviews 1 100 ++ sample_reviews 101 100 ++ sample_reviews 201 42
     = sample_reviews 1 100 ++ rest)%list.
Proof.
  apply (get_all_reviews_limit_gives_prefix three_pages demo_config
           "46d6a890000064000500e0c3" 1 3 2 init_world);
    reflexivity.
Defined.

(** ** The page on which the loop ends *)

(** After full pages, the run is at the pass for the next page, with
    their reviews collected. *)
Lemma run_to_next_page
    (transport : Transport) (config : TrustpilotConfig) (buid : string)
    (max_pages : option Z) (w : World) (pages : list (list Json))
    (fuel : nat) :
  (forall j reviews, nth_error pages j = Some reviews ->
     page_succeeds transport config buid w (S j) reviews /\
     (100 <= List.length reviews)%nat) ->
  (forall j, (j < List.length pages)%nat ->
     page_limit_reached max_pages (Z.of_nat (S j)) = false) ->
  get_all_reviews transport config (List.length pages + fuel) buid
                  max_pages w =
  get_all_reviews_loop transport config fuel buid max_pages
    (List.concat pages) (Z.of_nat (S (List.length pages)))
    {| calls := calls w + List.length pages;
       trace := trace w ++ page_events config buid 1 (List.length pages) |}.
Proof.
  intros Hpages Hlimit. unfold get_all_reviews. rewrite loop_full_pages.
  - cbn [app]. do 2 f_equal. lia.
  - intros j reviews Hj. destruct (Hpages j reviews Hj) as [Hs Hl].
    split; [| exact Hl]. unfold page_succeeds in Hs. cbn [Nat.pred] in Hs.
    replace (1 + Z.of_nat j) with (Z.of_nat (S j)) by lia. exact Hs.
  - intros j Hj. replace (1 + Z.of_nat j) with (Z.of_nat (S j)) by lia.
    now apply Hlimit.
Qed.

Lemma limit_before (max_pages : option Z) (k : nat) :
  page_limit_reached max_pages (Z.of_nat k) = false ->
  forall j, (j < k)%nat ->
  page_limit_reached max_pages (Z.of_nat (S j)) = false.
Proof.
  intros Hk j Hj. apply (page_limit_earlier _ (Z.of_nat k)); [exact Hk | lia].
Qed.

Lemma page_events_S (config : TrustpilotConfig) (buid : string) (n : nat) :
  forall page,
  page_events config buid page (S n) =
  (page_events config buid page n
     ++ [EvGet (reviews_request config buid (page + Z.of_nat n));
         EvSleep (rate_limit_delay config)])%list.
Proof.
  induction n as [| n IH]; intros page.
  - cbn. now rewrite Z.add_0_r.
  - change (page_events config buid page (S (S n)))
      with (EvGet (reviews_request config buid page)
            :: EvSleep (rate_limit_delay config)
            :: page_events config buid (page + 1) (S n)).
    rewrite IH. cbn [page_events app].
    replace (page + 1 + Z.of_nat n) with (page + Z.of_nat (S n)) by lia.
    reflexivity.
Qed.

(** X9. With a delay that [time.sleep] takes, when every page before
    page [k] succeeds with at least 100 reviews, page [k] succeeds with
    fewer than 100 (none at all included) and the maximum page count
    does not stop the loop before page [k], [get_all_reviews] returns
    the reviews of the pages 1 to [k] in page order after exactly [k]
    GET calls, each followed by the pause, and prints nothing. *)
Theorem get_all_reviews_short_last_page
    (transport : Transport) (config : TrustpilotConfig) (buid : string)
    (max_pages : option Z) (w : World) (pages : list (list Json))
    (last : list Json) (fuel : nat) :
  let k := S (List.length pages) in
  valid_delay (rate_limit_delay config) ->
  (forall j reviews, nth_error pages j = Some reviews ->
     page_succeeds transport config buid w (S j) reviews /\
     (100 <= List.length reviews)%nat) ->
  page_succeeds transport config buid w k last ->
  (List.length last < 100)%nat ->
  page_limit_reached max_pages (Z.of_nat k) = false ->
  (k <= fuel)%nat ->
  get_all_reviews transport config fuel buid max_pages w =
    (Some (Return (List.concat pages ++ last)%list),
     {| calls := calls w + k;
        trace := trace w ++ page_events config buid 1 k |}).
Proof.
  intros k _ Hpages Hlast Hlen Hlimit Hfuel.
  destruct (Nat.le_exists_sub _ _ Hfuel) as (extra & -> & _).
  replace (extra + k)%nat with (List.length pages + S extra)%nat
    by (subst k; lia).
  rewrite run_to_next_page;
    [| exact Hpages | intros j Hj; apply (limit_before _ k Hlimit); lia].
  rewrite loop_S. destruct Hlast as (payload & Ha & Hr).
  rewrite (body_payload _ _ _ _ _ _ _ payload); [| exact Hlimit | exact Ha].
  rewrite (on_page_short _ _ _ _ Hr Hlen). cbn [calls trace].
  subst k. rewrite page_events_S, <- app_assoc.
  replace (1 + Z.of_nat (List.length pages))
    with (Z.of_nat (S (List.length pages))) by lia.
  replace (S (calls w + List.length pages))
    with (calls w + S (List.length pages))%nat by lia.
  reflexivity.
Qed.

Lemma get_all_reviews_short_last_page_witness :
  get_all_reviews three_pages demo_config 5 "46d6a890000064000500e0c3"
                  (Some 7) init_world =
    (Some (Return (List.concat [sample_reviews 1 100; sample_reviews 101 100]
                     ++ sample_reviews 201 42)%list),
     {| calls := 3;
        trace := page_events demo_config "46d6a890000064000500e0c3" 1 3 |}).
Proof.
  apply (get_all_reviews_short_last_page three_pages demo_config
           "46d6a890000064000500e0c3" (Some 7) init_world
           [sample_reviews 1 100; sample_reviews 101 100]
           (sample_reviews 201 42) 5).
  - exact demo_delay_valid.
  - intros [| [| [| j]]] reviews Hj; try discriminate Hj;
      injection Hj as <-; (split; [| simpl; lia]);
      eexists; split; reflexivity.
  - eexists; split; reflexivity.
  - simpl; lia.
  - reflexivity.
  - simpl; lia.
Defined.

(** X10. With a delay that [time.sleep] takes and a positive maximum
    page count [m], when each of the pages 1 to [m] succeeds with at
    least 100 reviews, [get_all_reviews] returns the reviews of these
    [m] pages in page order after exactly [m] GET calls: page [m + 1] is
    never asked for. *)
Theorem get_all_reviews_stops_at_limit
    (transport : Transport) (config : TrustpilotConfig) (buid : string)
    (w : World) (pages : list (list Json)) (fuel : nat) :
  let m := List.length pages in
  valid_delay (rate_limit_delay config) ->
  (forall j reviews, nth_error pages j = Some reviews ->
     page_succeeds transport config buid w (S j) reviews /\
     (100 <= List.length reviews)%nat) ->
  (0 < m)%nat ->
  (m < fuel)%nat ->
  get_all_reviews transport config fuel buid (Some (Z.of_nat m)) w =
    (Some (Return (List.concat pages)),
     {| calls := calls w + m;
        trace := trace w ++ page_events config buid 1 m |}).
Proof.
  intros m _ Hpages Hm Hfuel.
  destruct (Nat.le_exists_sub _ _ Hfuel) as (extra & -> & _).
  replace (extra + S m)%nat with (m + S extra)%nat by lia.
  assert (Hnot0 : (Z.of_nat m =? 0) = false) by (apply Z.eqb_neq; lia).
  subst m. rewrite run_to_next_page; [| exact Hpages |].
  - rewrite loop_S, body_limit; [reflexivity |].
    cbn [page_limit_reached]. rewrite Hnot0, Z.gtb_ltb. apply Z.ltb_lt. lia.
  - intros j Hj. cbn [page_limit_reached]. rewrite Hnot0, Z.gtb_ltb.
    apply Z.ltb_ge. lia.
Qed.

Lemma get_all_reviews_stops_at_limit_witness :
  get_all_reviews three_pages demo_config 3 "46d6a890000064000500e0c3"
                  (Some 2) init_world =
    (Some (Return (List.concat [sample_reviews 1 100;
                                sample_reviews 101 100])),
     {| calls := 2;
        trace := page_events demo_config "46d6a890000064000500e0c3" 1 2 |}).
Proof.
  apply (get_all_reviews_stops_at_limit three_pages demo_config
           "46d6a890000064000500e0c3" init_world
           [sample_reviews 1 100; sample_reviews 101 100] 3).
  - exact demo_delay_valid.
  - intros [| [| [| j]]] reviews Hj; try discriminate Hj;
      injection Hj as <-; (split; [| simpl; lia]);
      eexists; split; reflexivity.
  - simpl; lia.
  - simpl; lia.
Defined.

(** X11. With a delay that [time.sleep] takes: a page whose payload is a
    [dict] with no ['reviews'] entry, or with an entry that Python takes
    for false ([null], [false], 0, an empty string, list or dict), ends
    the loop like an empty page: after full pages, [get_all_reviews]
    returns what it has collected, prints nothing and raises nothing. *)
Theorem get_all_reviews_missing_reviews
    (transport : Transport) (config : TrustpilotConfig) (buid : string)
    (max_pages : option Z) (w : World) (pages : list (list Json))
    (fields : list (string * Json)) (fuel : nat) :
  let k := S (List.length pages) in
  valid_delay (rate_limit_delay config) ->
  (forall j reviews, nth_error pages j = Some reviews ->
     page_succeeds transport config buid w (S j) reviews /\
     (100 <= List.length reviews)%nat) ->
  answer_at transport config buid (calls w + Nat.pred k) (Z.of_nat k)
    = Return (JObj fields) ->
  match dict_lookup "reviews" fields with
  | None => True
  | Some reviews => truthy reviews = false
  end ->
  page_limit_reached max_pages (Z.of_nat k) = false ->
  (k <= fuel)%nat ->
  get_all_reviews transport config fuel buid max_pages w =
    (Some (Return (List.concat pages)),
     {| calls := calls w + k;
        trace := trace w ++ page_events config buid 1 k |}).
Proof.
  intros k _ Hpages Ha Hfalse Hlimit Hfuel.
  destruct (Nat.le_exists_sub _ _ Hfuel) as (extra & -> & _).
  replace (extra + k)%nat with (List.length pages + S extra)%nat
    by (subst k; lia).
  rewrite run_to_next_page;
    [| exact Hpages | intros j Hj; apply (limit_before _ k Hlimit); lia].
  rewrite loop_S.
  rewrite (body_payload _ _ _ _ _ _ _ (JObj fields));
    [| exact Hlimit | exact Ha].
  assert (Hstep : forall page,
            on_page (List.concat pages) page (JObj fields)
            = Break (List.concat pages)).
  { intros page. unfold on_page. cbn [py_get].
    destruct (dict_lookup "reviews" fields) as [reviews |];
      [now rewrite Hfalse | reflexivity]. }
  rewrite Hstep. cbn [calls trace].
  subst k. rewrite page_events_S, <- app_assoc.
  replace (1 + Z.of_nat (List.length pages))
    with (Z.of_nat (S (List.length pages))) by lia.
  replace (S (calls w + List.length pages))
    with (calls w + S (List.length pages))%nat by lia.
  reflexivity.
Qed.

Lemma get_all_reviews_missing_reviews_witness :
  get_all_reviews (answers_with (GetResponse found_business)) demo_config 1
                  "46d6a890000064000500e0c3" None init_world =
    (Some (Return []),
     {| calls := 1;
        trace := page_events demo_config "46d6a890000064000500e0c3" 1 1 |}).
Proof.
  apply (get_all_reviews_missing_reviews
           (answers_with (GetResponse found_business)) demo_config
           "46d6a890000064000500e0c3" None init_world []
           [("businessUnits",
             JArr [JObj [("id", JStr "46d6a890000064000500e0c3");
                         ("displayName", JStr "Example")]])] 1).
  - exact demo_delay_valid.
  - intros [| j] reviews Hj; discriminate Hj.
  - reflexivity.
  - exact I.
  - reflexivity.
  - simpl; lia.
Defined.

(** X12. With a delay that [time.sleep] takes: a page whose payload is
    not a [dict], or whose ['reviews'] entry is true for Python but
    cannot be iterated over (a number other than 0, or [true]), makes
    [get_all_reviews] raise: [AttributeError] in the first case,
    [TypeError] in the second.  The reviews of the full pages before it
    are not returned. *)
Theorem get_all_reviews_malformed_payload
    (transport : Transport) (config : TrustpilotConfig) (buid : string)
    (max_pages : option Z) (w : World) (pages : list (list Json))
    (payload : Json) (fuel : nat) :
  let k := S (List.length pages) in
  valid_delay (rate_limit_delay config) ->
  (forall j reviews, nth_error pages j = Some reviews ->
     page_succeeds transport config buid w (S j) reviews /\
     (100 <= List.length reviews)%nat) ->
  answer_at transport config buid (calls w + Nat.pred k) (Z.of_nat k)
    = Return payload ->
  page_limit_reached max_pages (Z.of_nat k) = false ->
  (k <= fuel)%nat ->
  let result := fst (get_all_reviews transport config fuel buid max_pages w) in
  (is_dict payload = false -> result = Some (Raise AttributeError))
  /\ (forall reviews,
        py_get payload "reviews" (JArr []) = Return reviews ->
        truthy reviews = true ->
        match reviews with
        | JBool _ | JInt _ | JFloat _ => True
        | _ => False
        end ->
        result = Some (Raise TypeError)).
Proof.
  intros k _ Hpages Ha Hlimit Hfuel result. subst result.
  destruct (Nat.le_exists_sub _ _ Hfuel) as (extra & -> & _).
  replace (extra + k)%nat with (List.length pages + S extra)%nat
    by (subst k; lia).
  rewrite run_to_next_page;
    [| exact Hpages | intros j Hj; apply (limit_before _ k Hlimit); lia].
  rewrite loop_S.
  rewrite (body_payload _ _ _ _ _ _ _ payload); [| exact Hlimit | exact Ha].
  unfold on_page. split.
  - intros Hdict. destruct payload; try discriminate Hdict; reflexivity.
  - intros reviews -> -> Hkind.
    destruct reviews; try contradiction; reflexivity.
Qed.

Lemma get_all_reviews_malformed_payload_witness :
  fst (get_all_reviews
         (answers_with (GetResponse (mkResponse 200 "[]"
                                       (JsonValue (JArr [])))))
         demo_config 1 "46d6a890000064000500e0c3" None init_world)
    = Some (Raise AttributeError)
  /\ fst (get_all_reviews
         (answers_with (GetResponse (mkResponse 200 "{}"
            (JsonValue (JObj [("reviews", JInt 242)])))))
         demo_config 1 "46d6a890000064000500e0c3" None init_world)
    = Some (Raise TypeError).
Proof.
  split.
  - apply (get_all_reviews_malformed_payload
             (answers_with (GetResponse (mkResponse 200 "[]"
                                           (JsonValue (JArr [])))))
             demo_config "46d6a890000064000500e0c3" None init_world []
             (JArr []) 1);
      try exact demo_delay_valid; try reflexivity; try (simpl; lia).
    intros [| j] reviews Hj; discriminate Hj.
  - apply (get_all_reviews_malformed_payload
             (answers_with (GetResponse (mkResponse 200 "{}"
                (JsonValue (JObj [("reviews", JInt 242)])))))
             demo_config "46d6a890000064000500e0c3" None init_world []
             (JObj [("reviews", JInt 242)]) 1) with (reviews := JInt 242);
      try exact demo_delay_valid; try reflexivity; try (simpl; lia);
      try exact I.
    intros [| j] reviews Hj; discriminate Hj.
Defined.

(** ** The display of a review *)

Lemma py_get_dict_missing (fields : list (string * Json)) (key : string)
    (default : Json) :
  dict_lookup key fields = None ->
  py_get (JObj fields) key default = Return default.
Proof. cbn [py_get]. now intros ->. Qed.

(** X13. For a review that has none of the entries ['title'], ['text'],
    ['stars'], ['createdAt'], and whose ['consumer'] entry is missing or
    is a [dict] with no ['displayName'], [format_review] returns the
    text made of the defaults: "No title", "Anonymous", 0, "Unknown
    date" and "No text", closed by a line of 50 equals signs. *)
Theorem format_review_defaults
    (int_max_str_digits : nat) (str_other : Json -> Result string)
    (fields : list (string * Json)) :
  dict_lookup "title" fields = None ->
  dict_lookup "text" fields = None ->
  dict_lookup "stars" fields = None ->
  dict_lookup "createdAt" fields = None ->
  match dict_lookup "consumer" fields with
  | None => True
  | Some (JObj consumer) => dict_lookup "displayName" consumer = None
  | Some _ => False
  end ->
  format_review int_max_str_digits str_other (JObj fields) =
    Return (nl ++ "Title: No title" ++ nl
               ++ "Author: Anonymous" ++ nl
               ++ "Rating: 0/5 stars" ++ nl
               ++ "Date: Unknown date" ++ nl
               ++ "Review: No text" ++ nl
               ++ separator ++ nl)
  /\ String.length separator = 50%nat.
Proof.
  intros Htitle Htext Hstars Hdate Hconsumer.
  split; [| reflexivity].
  assert (Hzero : int_fits int_max_str_digits 0 = true)
    by (unfold int_fits; now destruct int_max_str_digits as [| [| n]]).
  assert (Hrender :
    render int_max_str_digits str_other (JStr "No title") (JStr "Anonymous")
           (JInt 0) (JStr "Unknown date") (JStr "No text") =
    Return (nl ++ "Title: No title" ++ nl
               ++ "Author: Anonymous" ++ nl
               ++ "Rating: 0/5 stars" ++ nl
               ++ "Date: Unknown date" ++ nl
               ++ "Review: No text" ++ nl
               ++ separator ++ nl)).
  { unfold render. cbn [py_format]. now rewrite Hzero. }
  unfold format_review.
  rewrite !py_get_dict_missing by assumption.
  cbn [py_get]. destruct (dict_lookup "consumer" fields) as [consumer |].
  - destruct consumer; try contradiction.
    cbn [py_get]. rewrite Hconsumer. exact Hrender.
  - exact Hrender.
Qed.

Lemma format_review_defaults_witness :
  format_review 4300 (fun _ => Return "")
                (JObj [("id", JStr "r1"); ("consumer", JObj [])]) =
    Return (nl ++ "Title: No title" ++ nl
               ++ "Author: Anonymous" ++ nl
               ++ "Rating: 0/5 stars" ++ nl
               ++ "Date: Unknown date" ++ nl
               ++ "Review: No text" ++ nl
               ++ separator ++ nl)
  /\ String.length separator = 50%nat.
Proof.
  apply (format_review_defaults 4300 (fun _ => Return "")
           [("id", JStr "r1"); ("consumer", JObj [])]);
    reflexivity.
Defined.

(** A review as the API sends it, and one whose author has no name. *)
Example format_review_sample :
  format_review 4300 (fun _ => Raise TypeError)
    (JObj [("title", JStr "Great"); ("stars", JInt 5);
           ("consumer", JObj [("displayName", JNull)])]) =
    Return (nl ++ "Title: Great" ++ nl
               ++ "Author: None" ++ nl
               ++ "Rating: 5/5 stars" ++ nl
               ++ "Date: Unknown date" ++ nl
               ++ "Review: No text" ++ nl
               ++ separator ++ nl).
Proof. reflexivity. Qed.

Lemma py_format_displayable (limit : nat) (str_other : Json -> Result string)
    (v : Json) :
  displayable limit v = true ->
  exists s, py_format limit str_other v = Return s.
Proof.
  destruct v as [| [|] | n | x | s | items | fields]; cbn;
    try discriminate; try (intros _; eexists; reflexivity).
  intros ->. eexists; reflexivity.
Qed.

Lemma render_displayable (limit : nat) (str_other : Json -> Result string)
    (title author stars created_at text : Json) :
  displayable limit title = true ->
  displayable limit author = true ->
  displayable limit stars = true ->
  displayable limit created_at = true ->
  displayable limit text = true ->
  exists s, render limit str_other title author stars created_at text
            = Return s.
Proof.
  intros H1 H2 H3 H4 H5. unfold render.
  destruct (py_format_displayable limit str_other _ H1) as (s1 & ->).
  destruct (py_format_displayable limit str_other _ H2) as (s2 & ->).
  destruct (py_format_displayable limit str_other _ H3) as (s3 & ->).
  destruct (py_format_displayable limit str_other _ H4) as (s4 & ->).
  destruct (py_format_displayable limit str_other _ H5) as (s5 & ->).
  eexists; reflexivity.
Qed.

(** What is shown for a key: the entry when present, the default
    otherwise; displayable when the entries present are. *)
Lemma shown_or_default (limit : nat) (fields : list (string * Json))
    (key : string) (default : Json) :
  displayable limit default = true ->
  Forall (fun v => displayable limit v = true) (present key fields) ->
  exists v, py_get (JObj fields) key default = Return v /\
            displayable limit v = true.
Proof.
  intros Hd Hp. unfold present in Hp. cbn [py_get].
  destruct (dict_lookup key fields) as [v |].
  - exists v. split; [reflexivity | now inversion Hp].
  - now exists default.
Qed.

(** X14. [format_review] raises [AttributeError] when the review is not a
    [dict] or its ['consumer'] entry is present and is not a [dict]
    ([null] included), and only a review of neither kind gives a text.
    A review of neither kind gives a text whenever the entries shown
    that are present are [None], booleans, strings or integers within
    the digit limit of the interpreter; when ['title'] and the name of
    the consumer are such values and ['stars'] is an integer beyond the
    limit, [format_review] raises [ValueError]. *)
Theorem format_review_raises
    (int_max_str_digits : nat) (str_other : Json -> Result string)
    (review : Json) :
  let malformed :=
    is_dict review = false \/
    exists fields consumer,
      review = JObj fields /\
      dict_lookup "consumer" fields = Some consumer /\
      is_dict consumer = false in
  let run := format_review int_max_str_digits str_other review in
  (malformed -> run = Raise AttributeError)
  /\ ((exists s, run = Return s) -> ~ malformed)
  /\ (~ malformed ->
      Forall (fun v => displayable int_max_str_digits v = true)
             (shown_values review) ->
      exists s, run = Return s)
  /\ (forall fields n,
        review = JObj fields ->
        dict_lookup "title" fields = None ->
        dict_lookup "consumer" fields = None ->
        dict_lookup "stars" fields = Some (JInt n) ->
        int_fits int_max_str_digits n = false ->
        run = Raise ValueError).
Proof.
  cbv zeta.
  assert (Hmal :
    (is_dict review = false \/
     exists fields consumer,
       review = JObj fields /\
       dict_lookup "consumer" fields = Some consumer /\
       is_dict consumer = false) ->
    format_review int_max_str_digits str_other review = Raise AttributeError).
  { intros [Hd | (fields & consumer & -> & Hc & Hd)].
    - destruct review; try discriminate Hd; reflexivity.
    - unfold format_review. cbn [py_get]. rewrite Hc.
      destruct (dict_lookup "title" fields), (dict_lookup "text" fields),
        (dict_lookup "stars" fields), (dict_lookup "createdAt" fields);
        destruct consumer; try discriminate Hd; reflexivity. }
  split; [exact Hmal | split; [| split]].
  - intros (s & Hs) Hm. rewrite (Hmal Hm) in Hs. discriminate Hs.
  - intros Hgood Hshown.
    destruct review as [| b | n | x | s | items | fields];
      try (exfalso; apply Hgood; now left).
    cbn [shown_values] in Hshown.
    apply Forall_app in Hshown as [Htitle Hshown].
    apply Forall_app in Hshown as [Htext Hshown].
    apply Forall_app in Hshown as [Hstars Hshown].
    apply Forall_app in Hshown as [Hdate Hname].
    unfold format_review.
    destruct (shown_or_default int_max_str_digits fields "title"
                (JStr "No title") eq_refl Htitle) as (title & -> & Dtitle).
    destruct (shown_or_default int_max_str_digits fields "text"
                (JStr "No text") eq_refl Htext) as (text & -> & Dtext).
    assert (Hzero : displayable int_max_str_digits (JInt 0) = true)
      by (cbn; unfold int_fits; now destruct int_max_str_digits as [| [| n]]).
    destruct (shown_or_default int_max_str_digits fields "stars"
                (JInt 0) Hzero Hstars) as (stars & -> & Dstars).
    destruct (shown_or_default int_max_str_digits fields "createdAt"
                (JStr "Unknown date") eq_refl Hdate) as (date & -> & Ddate).
    cbn [py_get].
    destruct (dict_lookup "consumer" fields) as [consumer |] eqn:Hc.
    + destruct consumer as [| b | n | x | s | items | cfields];
        try (exfalso; apply Hgood; right; exists fields; eexists;
             split; [reflexivity | split; [exact Hc | reflexivity]]).
      destruct (shown_or_default int_max_str_digits cfields "displayName"
                  (JStr "Anonymous") eq_refl Hname) as (author & -> & Dauthor).
      now apply render_displayable.
    + cbn [py_get dict_lookup]. now apply render_displayable.
  - intros fields n -> Htitle Hc Hstars Hbig.
    unfold format_review. cbn [py_get]. rewrite Htitle, Hc, Hstars.
    destruct (dict_lookup "text" fields), (dict_lookup "createdAt" fields);
      cbn [py_get dict_lookup]; unfold render; cbn [py_format];
      now rewrite Hbig.
Qed.

Lemma format_review_raises_witness :
  format_review 4300 (fun _ => Raise TypeError) (JArr []) =
    Raise AttributeError
  /\ (exists s,
        format_review 4300 (fun _ => Raise TypeError)
          (JObj [("title", JStr "Great"); ("stars", JInt 5);
                 ("consumer", JObj [("displayName", JNull)])]) = Return s)
  /\ format_review 640 (fun _ => Raise TypeError)
        (JObj [("stars", JInt (10 ^ 640))]) = Raise ValueError.
Proof.
  split; [| split].
  - apply (format_review_raises 4300 (fun _ => Raise TypeError) (JArr [])).
    now left.
  - apply (format_review_raises 4300 (fun _ => Raise TypeError)
             (JObj [("title", JStr "Great"); ("stars", JInt 5);
                    ("consumer", JObj [("displayName", JNull)])])).
    + intros [Hd | (fields & consumer & [= <-] & [= <-] & Hd)];
        discriminate Hd.
    + repeat constructor.
  - apply (format_review_raises 640 (fun _ => Raise TypeError)
             (JObj [("stars", JInt (10 ^ 640))]))
      with (fields := [("stars", JInt (10 ^ 640))]) (n := 10 ^ 640);
      reflexivity.
Defined.

(** ** Pauses and printed lines of a run *)

Section LoopEffects.

Variable transport : Transport.
Variable config : TrustpilotConfig.
Variable buid : string.

Local Abbreviation answer_at := (answer_at transport config buid).
Local Abbreviation loop := (get_all_reviews_loop transport config).
Local Abbreviation body := (loop_body transport config buid).

Lemma prints_of_app (t1 t2 : list Event) :
  prints_of (t1 ++ t2) = (prints_of t1 ++ prints_of t2)%list.
Proof.
  induction t1 as [| [r | d | l] t1 IH]; simpl; now rewrite ?IH.
Qed.

Lemma prints_of_call (r : Request) (o : GetOutcome) :
  prints_of (events_of_call config r o) = [].
Proof.
  unfold events_of_call.
  now destruct o, (sleep_error (rate_limit_delay config)).
Qed.

Lemma prints_of_page_events (n : nat) :
  forall page, prints_of (page_events config buid page n) = [].
Proof. induction n as [| n IH]; intros page; [reflexivity | apply IH]. Qed.

(** A GET call is followed by its pause unless the call raised or
    [time.sleep] did not take the delay. *)
Lemma events_of_call_cases (r : Request) (o : GetOutcome) :
  events_of_call config r o = [EvGet r; EvSleep (rate_limit_delay config)]
  \/ (events_of_call config r o = [EvGet r] /\
      ((exists exc, o = GetRaises exc) \/
       ~ valid_delay (rate_limit_delay config))).
Proof.
  unfold events_of_call. destruct o as [response | exc].
  - destruct (sleep_error (rate_limit_delay config)) eqn:Hs; [| now left].
    right. split; [reflexivity |]. right.
    intros Hvalid%sleep_error_valid. congruence.
  - right. split; [reflexivity |]. left. now exists exc.
Qed.

(** The trace of one pass: nothing when the limit is reached; otherwise
    the GET call with its pause, if any, and then the printed line, if
    the page failed with an API error. *)
Lemma body_trace (max_pages : option Z) (acc : list Json) (page : Z)
    (w : World) :
  let (step, w') := body max_pages acc page w in
  (step = Break acc /\ w' = w) \/
  (calls w' = S (calls w) /\
   exists line,
     trace w' =
       (trace w
          ++ events_of_call config (reviews_request config buid page)
               (transport (calls w) (reviews_request config buid page))
          ++ match line with Some l => [EvPrint l] | None => [] end)%list /\
     match line with
     | None => True
     | Some l => exists e,
         answer_at (calls w) page = Raise (ApiError e) /\
         step = Break acc /\ l = error_line page e
     end /\
     match step with
     | Continue _ page' =>
         page' = page + 1 /\
         events_of_call config (reviews_request config buid page)
           (transport (calls w) (reviews_request config buid page))
         = [EvGet (reviews_request config buid page);
            EvSleep (rate_limit_delay config)]
     | _ => True
     end).
Proof.
  unfold loop_body.
  destruct (page_limit_reached max_pages page); [left; now split |].
  unfold bind. rewrite get_reviews_100_run. cbv zeta. unfold answer_at.
  destruct (make_request_result config _)
    as [payload | [e | e | | | |]] eqn:Hr;
    cbn [print emit ret bind calls trace]; right;
    (split; [reflexivity |]).
  - exists None. rewrite app_nil_r. repeat split.
    destruct (on_page acc page payload) as [acc' | acc' page' | r] eqn:E;
      try exact I.
    split; [now apply on_page_Continue in E |].
    now apply (events_of_call_Return _ _ _ _ Hr).
  - exists (Some (error_line page e)). rewrite <- app_assoc.
    repeat split. now exists e.
  - exists None. rewrite app_nil_r. now repeat split.
  - exists None. rewrite app_nil_r. now repeat split.
  - exists None. rewrite app_nil_r. now repeat split.
  - exists None. rewrite app_nil_r. now repeat split.
  - exists None. rewrite app_nil_r. now repeat split.
Qed.

(** The trace of a run: the pages gone through, each a GET call and its
    pause; then, at most, a last GET call without a pause and one
    printed line. *)
Lemma loop_trace (fuel : nat) :
  forall (max_pages : option Z) (acc : list Json) (page : Z) (w : World),
  let run := loop fuel buid max_pages acc page w in
  exists (s : nat) (unpaused : bool) (line : option string),
    let n := (s + if unpaused then 1 else 0)%nat in
    let last := reviews_request config buid (page + Z.of_nat s) in
    calls (snd run) = (calls w + n)%nat /\
    trace (snd run) =
      (trace w ++ page_events config buid page s
         ++ (if unpaused then [EvGet last] else [])
         ++ match line with Some l => [EvPrint l] | None => [] end)%list /\
    (unpaused = true ->
       (exists exc, transport (calls w + s)%nat last = GetRaises exc) \/
       ~ valid_delay (rate_limit_delay config)) /\
    match line with
    | None => True
    | Some l => exists e result,
        (1 <= n)%nat /\
        answer_at (calls w + Nat.pred n) (page + Z.of_nat (Nat.pred n))
          = Raise (ApiError e) /\
        fst run = Some (Return result) /\
        l = error_line (page + Z.of_nat (Nat.pred n)) e
    end.
Proof.
  induction fuel as [| fuel IH]; intros max_pages acc page w; cbv zeta.
  { exists 0%nat, false, None. cbn. rewrite app_nil_r, Nat.add_0_r.
    repeat split. discriminate. }
  rewrite loop_S. pose proof (body_trace max_pages acc page w) as Hbody.
  destruct (body max_pages acc page w) as [step w1].
  destruct Hbody as [(-> & ->) | (Hcalls & line & Htrace & Hline & Hstep)].
  { exists 0%nat, false, None. cbn. rewrite app_nil_r, Nat.add_0_r.
    repeat split. discriminate. }
  destruct step as [acc' | acc' page' | r].
  - (* the loop ends on this pass *)
    destruct (events_of_call_cases
                (reviews_request config buid page)
                (transport (calls w) (reviews_request config buid page)))
      as [Hev | [Hev Hwhy]]; rewrite Hev in Htrace.
    + exists 1%nat, false, line. cbn [fst snd Nat.add Nat.pred page_events app].
      rewrite Nat.add_0_r, Z.add_0_r.
      split; [lia | split; [exact Htrace | split; [discriminate |]]].
      destruct line as [l |]; [| exact I].
      destruct Hline as (e & Ha & _ & ->). exists e, acc'.
      repeat split; try assumption; lia.
    + exists 0%nat, true, line. cbn [fst snd Nat.add Nat.pred page_events app].
      rewrite Nat.add_0_r, Z.add_0_r.
      split; [lia | split; [exact Htrace | split; [intros _; exact Hwhy |]]].
      destruct line as [l |]; [| exact I].
      destruct Hline as (e & Ha & _ & ->). exists e, acc'.
      repeat split; try assumption; lia.
  - (* the loop goes on, after the pause and without a line *)
    destruct Hstep as [-> Hev]. rewrite Hev in Htrace.
    destruct line as [l |]; [destruct Hline as (e & _ & [=] & _) |].
    destruct (IH max_pages acc' (page + 1) w1)
      as (s & unpaused & line & Hc & Ht & Hu & Hl).
    exists (S s), unpaused, line. cbv zeta in *.
    replace (page + Z.of_nat (S s)) with (page + 1 + Z.of_nat s) by lia.
    replace (calls w + S s)%nat with (calls w1 + s)%nat by lia.
    split; [lia | split; [| split; [exact Hu |]]].
    + rewrite Ht, Htrace, <- !app_assoc. reflexivity.
    + destruct line as [l |]; [| exact I].
      destruct Hl as (e & result & Hn & Ha & Hres & ->).
      exists e, result.
      assert (Hpred : Nat.pred (S s + (if unpaused then 1 else 0))
                      = S (Nat.pred (s + (if unpaused then 1 else 0))))
        by lia.
      rewrite Hpred.
      replace (calls w + S (Nat.pred (s + (if unpaused then 1 else 0))))%nat
        with (calls w1 + Nat.pred (s + (if unpaused then 1 else 0)))%nat
        by lia.
      replace (page + Z.of_nat (S (Nat.pred (s + (if unpaused then 1 else 0)))))
        with (page + 1 + Z.of_nat (Nat.pred (s + (if unpaused then 1 else 0))))
        by lia.
      repeat split; try assumption; lia.
  - (* an exception leaves the loop *)
    destruct line as [l |]; [destruct Hline as (e & _ & [=] & _) |].
    destruct (events_of_call_cases
                (reviews_request config buid page)
                (transport (calls w) (reviews_request config buid page)))
      as [Hev | [Hev Hwhy]]; rewrite Hev in Htrace.
    + exists 1%nat, false, None. cbn [fst snd Nat.add page_events app].
      split; [lia | split; [exact Htrace | split; [discriminate | exact I]]].
    + exists 0%nat, true, None. cbn [fst snd Nat.add page_events app].
      rewrite Nat.add_0_r, Z.add_0_r.
      split; [lia | split; [exact Htrace | split; [| exact I]]].
      intros _. exact Hwhy.
Qed.

End LoopEffects.

(** X15. The trace of a run of [get_all_reviews], on any stream: for the
    pages 1 to [s], the GET call for the page immediately followed by a
    pause of the configured delay; then, at most, one last GET call
    without a pause, which happens only when that call raised or
    [time.sleep] did not take the delay; then, at most, one printed
    line.  So every pause follows its GET call, and a run with [n] GET
    calls pauses [n] or [n - 1] times. *)
Theorem get_all_reviews_pauses
    (transport : Transport) (config : TrustpilotConfig) (buid : string)
    (max_pages : option Z) (fuel : nat) (w : World) :
  let w' := snd (get_all_reviews transport config fuel buid max_pages w) in
  exists (s : nat) (unpaused : bool) (line : option string),
    let last := reviews_request config buid (Z.of_nat (S s)) in
    calls w' = (calls w + s + if unpaused then 1 else 0)%nat /\
    trace w' =
      (trace w ++ page_events config buid 1 s
         ++ (if unpaused then [EvGet last] else [])
         ++ match line with Some l => [EvPrint l] | None => [] end)%list /\
    (unpaused = true ->
       (exists exc, page_outcome transport config buid w (S s) = GetRaises exc)
       \/ ~ valid_delay (rate_limit_delay config)).
Proof.
  cbv zeta. unfold get_all_reviews.
  destruct (loop_trace transport config buid fuel max_pages [] 1 w)
    as (s & unpaused & line & Hc & Ht & Hu & _).
  exists s, unpaused, line. cbv zeta in *. unfold page_outcome.
  cbn [Nat.pred].
  replace (Z.of_nat (S s)) with (1 + Z.of_nat s) by lia.
  split; [lia | split; [exact Ht | exact Hu]].
Qed.

(** X16. A run of [get_all_reviews] prints one line at most.  When it
    prints one, the last page asked for has failed with an API error, the
    line names that page and carries the message of the error, and the
    run returns a list. *)
Theorem get_all_reviews_prints
    (transport : Transport) (config : TrustpilotConfig) (buid : string)
    (max_pages : option Z) (fuel : nat) (w : World) :
  let run := get_all_reviews transport config fuel buid max_pages w in
  prints_of (trace (snd run)) = prints_of (trace w)
  \/ exists k e result,
       (1 <= k)%nat /\
       calls (snd run) = (calls w + k)%nat /\
       page_fails transport config buid w k e /\
       fst run = Some (Return result) /\
       prints_of (trace (snd run)) =
         (prints_of (trace w)
            ++ [error_line (Z.of_nat k) e])%list.
Proof.
  cbv zeta. unfold get_all_reviews.
  destruct (loop_trace transport config buid fuel max_pages [] 1 w)
    as (s & unpaused & line & Hc & Ht & _ & Hl).
  cbv zeta in *. rewrite Ht, !prints_of_app, prints_of_page_events.
  assert (Hget : prints_of
            (if unpaused
             then [EvGet (reviews_request config buid (1 + Z.of_nat s))]
             else []) = []) by now destruct unpaused.
  rewrite Hget. cbn [app].
  destruct line as [l |]; [| left; cbn; now rewrite app_nil_r].
  right. destruct Hl as (e & result & Hn & Ha & Hres & ->).
  exists (s + (if unpaused then 1 else 0))%nat, e, result.
  destruct (s + (if unpaused then 1 else 0))%nat as [| n]; [lia |].
  cbn [Nat.pred] in *.
  replace (1 + Z.of_nat n) with (Z.of_nat (S n)) in * by lia.
  repeat split; assumption.
Qed.
